(** * Data-quality dashboard router: embedding and verified properties

    A shallow embedding of [src/routers/data_quality.py] and
    [src/dependencies.py]: the group-by category vocabulary and its alias
    normalisation, the list / update / filter-options handlers, and the
    grouping of filter values.  Handlers run in a small state-and-error
    monad whose state holds the definition store and the ordered log of
    calls made to the database and to the scoring engine. *)

From Stdlib Require Import Ascii NArith ZArith.
From stdpp Require Import gmap strings list fin_maps.

Local Open Scope Z_scope.

(** ** Python string operations used by the handlers

    A [string] is read as a sequence of code points below 256; on that
    range [lower], [strip] and single-character [replace] are as follows. *)
Module PyStr.

(** [c.lower()]: A-Z, and the Latin-1 capitals U+00C0-U+00DE except the
    multiplication sign U+00D7, move up by 32. *)
Definition lower_char (c : ascii) : ascii :=
  let n := N_of_ascii c in
  if ((65 <=? n) && (n <=? 90) ||
      (192 <=? n) && (n <=? 222) && negb (n =? 215))%N
  then ascii_of_N (n + 32) else c.

Fixpoint lower (s : string) : string :=
  match s with
  | EmptyString => EmptyString
  | String c s' => String (lower_char c) (lower s')
  end.

(** [s.replace(a, b)] for one-character [a] and [b]. *)
Fixpoint replace (a b : ascii) (s : string) : string :=
  match s with
  | EmptyString => EmptyString
  | String c s' => String (if Ascii.eqb c a then b else c) (replace a b s')
  end.

(** [c.isspace()]: TAB..CR, FS..US, SPACE, NEL and NBSP. *)
Definition isspace (c : ascii) : bool :=
  let n := N_of_ascii c in
  ((9 <=? n) && (n <=? 13) || (28 <=? n) && (n <=? 32) ||
   (n =? 133) || (n =? 160))%N.

Fixpoint lstrip (s : string) : string :=
  match s with
  | EmptyString => EmptyString
  | String c s' => if isspace c then lstrip s' else s
  end.

Definition rstrip (s : string) : string :=
  String.rev (lstrip (String.rev s)).

(** [s.strip()] *)
Definition strip (s : string) : string := rstrip (lstrip s).

(** [sep.join(l)] *)
Fixpoint join (sep : string) (l : list string) : string :=
  match l with
  | [] => EmptyString
  | [x] => x
  | x :: rest => x +:+ sep +:+ join sep rest
  end.

(** Python truthiness of [Optional[str]]: [None] and the empty string
    are falsy. *)
Definition truthy (o : option string) : bool :=
  match o with
  | Some (String _ _) => true
  | _ => false
  end.

End PyStr.

(** ** Exceptions leaving a handler *)
Inductive Exn : Type :=
  | HTTPException (status_code : Z) (detail : string)
      (* raised by the handlers and by the validators *)
  | RequestValidationError (param : string)
      (* a query parameter that does not coerce to its declared type;
         the handler body is not entered *)
  | KeyError (key : string).
      (* a failed [ScoreCategory[...]] lookup *)

Definition HTTP_400_BAD_REQUEST : Z := 400.
Definition HTTP_404_NOT_FOUND : Z := 404.

(** ** The group-by vocabulary ([GroupByCategory], lines 38-52) *)
Inductive GroupByCategory : Type :=
  | column_name | table_name | dq_dimension | semantic_data_type
  | table_groups_name | data_location | data_source | source_system
  | source_process | business_domain | stakeholder_group
  | transform_level | data_product.

Module GroupBy.

(** [member.value] *)
Definition value (g : GroupByCategory) : string :=
  match g with
  | column_name => "column_name"
  | table_name => "table_name"
  | dq_dimension => "dq_dimension"
  | semantic_data_type => "semantic_data_type"
  | table_groups_name => "table_groups_name"
  | data_location => "data_location"
  | data_source => "data_source"
  | source_system => "source_system"
  | source_process => "source_process"
  | business_domain => "business_domain"
  | stakeholder_group => "stakeholder_group"
  | transform_level => "transform_level"
  | data_product => "data_product"
  end.

(** The members in definition order. *)
Definition members : list GroupByCategory :=
  [ column_name; table_name; dq_dimension; semantic_data_type;
    table_groups_name; data_location; data_source; source_system;
    source_process; business_domain; stakeholder_group;
    transform_level; data_product ].

(** [GroupByCategory(s)]: lookup of a member by value, as done when the
    [group_by] query parameter is coerced to its declared type. *)
Definition of_value (s : string) : option GroupByCategory :=
  List.find (fun g => String.eqb (value g) s) members.

(** The alias table of both handlers (lines 254-258 and 320-324). *)
Definition group_by_mapping : gmap string string :=
  <["tablegroup" := "table_groups_name"]>
    (<["table group" := "table_groups_name"]>
       (<["table_group" := "table_groups_name"]> ∅)).

(** Line 261 / 326:
    [group_by_mapping.get(v.lower().replace("_", " ").strip(), v)] *)
Definition alias_key (group_by_value : string) : string :=
  PyStr.strip (PyStr.replace "_" " " (PyStr.lower group_by_value)).

Definition normalize (group_by_value : string) : string :=
  default group_by_value (group_by_mapping !! alias_key group_by_value).

(** Lines 264-278 / 329-343. *)
Definition valid_categories : list string :=
  [ "column_name"; "table_name"; "dq_dimension"; "semantic_data_type";
    "table_groups_name"; "data_location"; "data_source"; "source_system";
    "source_process"; "business_domain"; "stakeholder_group";
    "transform_level"; "data_product" ].

Definition invalid_group_by_detail (shown : string) : string :=
  "Invalid group_by parameter: '" +:+ shown +:+ "'. Must be one of: "
    +:+ PyStr.join ", " valid_categories.

(** Lines 280-284 / 345-349; [shown] is the text the f-string prints for
    the [group_by] argument. *)
Definition check (shown normalized_group_by : string) : Exn + string :=
  if bool_decide (normalized_group_by ∈ valid_categories)
  then inr normalized_group_by
  else inl (HTTPException HTTP_400_BAD_REQUEST
                          (invalid_group_by_detail shown)).

End GroupBy.

(** ** Collaborators outside the router

    The scoring engine, the persistence layer and the response formatters
    are not part of the router.  Their data is kept abstract in
    [Carriers]; their operations are the fields of [Engine] below. *)
Class Carriers : Type := {
  ScoreCategory : Type;        (* testgen's [ScoreCategory] enum *)
  Criteria : Type;             (* [ScoreDefinitionCriteria] *)
  DefinitionHistory : Type;    (* an entry of [ScoreDefinition.history] *)
  CardValue : Type;            (* a value stored in a score-card dict *)
  CategoryScore : Type;        (* schema [CategoryScore] *)
  HistoryEntry : Type;         (* schema [HistoryEntry] *)
  BreakdownItem : Type;        (* schema [BreakdownItem] *)
  IssueItem : Type;            (* schema [IssueItem] *)
}.

(** [Literal["score", "cde_score"]] *)
Module ScoreType.
Inductive t : Type := score | cde_score.

Definition of_string (s : string) : option t :=
  if String.eqb s "score" then Some score
  else if String.eqb s "cde_score" then Some cde_score
  else None.
End ScoreType.

(** Schema [DashboardFilterCreate]. *)
Module DashboardFilterCreate.
Record t : Type := {
  field : string;
  value : string;
  others : list (gmap string string);
}.
End DashboardFilterCreate.

(** The dict with keys [field], [value], [others] that the handlers hand
    to [ScoreDefinitionCriteria.from_filters]. *)
Module FilterData.
Record t : Type := {
  field : string;
  value : string;
  others : list (gmap string string);
}.
End FilterData.

(** Schema [DashboardUpdate]: every field optional. *)
Module DashboardUpdate.
Record t : Type := {
  name : option string;
  total_score : option bool;
  cde_score : option bool;
  category : option string;
  filters : option (list DashboardFilterCreate.t);
  group_by_field : option bool;
}.
End DashboardUpdate.

(** The attributes of testgen's [ScoreDefinition] the router touches;
    [id] is held as its [str()] form. *)
Module ScoreDefinition.
Record t `{Carriers} : Type := {
  id : string;
  project_code : string;
  name : string;
  total_score : bool;
  cde_score : bool;
  category : option ScoreCategory;
  criteria : Criteria;
  history : list DefinitionHistory;
}.
End ScoreDefinition.

(** Schema [DashboardResponse]. *)
Module DashboardResponse.
Record t `{Carriers} : Type := {
  id : string;
  project_code : string;
  name : string;
  score : option string;
  cde_score : option string;
  profiling_score : option string;
  testing_score : option string;
  categories_label : option string;
  categories : list CategoryScore;
  history : list HistoryEntry;
}.
End DashboardResponse.

(** Schema [ColumnHierarchy]. *)
Module ColumnHierarchy.
Record t : Type := {
  column_id : string;
  column_name : string;
  table_id : string;
  table_name : string;
  table_group_id : string;
  table_group_name : string;
}.
End ColumnHierarchy.

(** A [{"field": .., "label": ..}] or [{"value": .., "label": ..}] entry
    of the hand-written option tables. *)
Module Option_.
Record t : Type := { key : string; label : string }.
End Option_.

(** Schema [FilterOptions]. *)
Module FilterOptions.
Record t : Type := {
  filter_fields_metadata : list Option_.t;
  filter_values : gmap string (list string);
  columns : list ColumnHierarchy.t;
  category_options : list Option_.t;
  score_grouping_options : list Option_.t;
  score_type_options : list Option_.t;
}.
End FilterOptions.

(** A row of the filter-value query: columns [category] and [value]. *)
Module CategoryValueRow.
Record t : Type := { category : option string; value : option string }.
End CategoryValueRow.

(** A score card is a dict keyed by field name. *)
Abbreviation ScoreCard := (gmap string CardValue).

(** ** Calls that leave the router, in the order they are made *)
Inductive Event `{Carriers} : Type :=
  | ProjectQuery (project_code : string)
      (* [db.query(Project).filter(...).first()] *)
  | ScoreDefinitionGet (dashboard_id : string)
  | ScoreDefinitionAll (project_code name_filter : option string)
                       (sorted_by : string) (last_history_items : Z)
  | AsScoreCard (id : string)
  | AsCachedScoreCard (id : string) (include_definition : bool)
  | GetScoreCardBreakdown (id : string) (score_type : ScoreType.t)
                          (group_by : string)
  | GetScoreCardIssues (id : string) (score_type : ScoreType.t)
                       (group_by value : string)
  | FetchFilterValues (project_code : string)
      (* [fetch_all_from_db] with the category/value union query *)
  | FetchColumns (project_code : string)
      (* [fetch_all_from_db] with the column hierarchy query *)
  | Save (d : ScoreDefinition.t).

(** A score computation by the engine: a fresh or a cached card call. *)
Definition is_score_computation `{Carriers} (e : Event) : bool :=
  match e with
  | AsScoreCard _ | AsCachedScoreCard _ _ => true
  | _ => false
  end.

(** A dynamic query of the filter-options helpers. *)
Definition is_dynamic_query `{Carriers} (e : Event) : bool :=
  match e with
  | FetchFilterValues _ | FetchColumns _ => true
  | _ => false
  end.

(** ** The state a request runs against *)
Record World `{Carriers} : Type := {
  projects : gset string;                      (* existing project codes *)
  definitions : gmap string ScoreDefinition.t; (* stored definitions by id *)
  log : list Event;                            (* calls made so far *)
}.

(** The operations of the collaborators. *)
Class Engine `{Carriers} : Type := {
  (* [UUID(s)] does not raise [ValueError] *)
  UUID_parses : string -> bool;
  (* [ScoreCategory[name]], [None] for [KeyError] *)
  ScoreCategory_getitem : string -> option ScoreCategory;
  (* [member.value] *)
  ScoreCategory_value : ScoreCategory -> string;
  (* [ScoreDefinitionCriteria.from_filters(filters, group_by_field=..)] *)
  from_filters : list FilterData.t -> bool -> Criteria;
  (* [ScoreDefinition.all(project_code=, name_filter=, sorted_by=,
     last_history_items=)] over the stored definitions *)
  ScoreDefinition_all :
    gmap string ScoreDefinition.t -> option string -> option string ->
    string -> Z -> list ScoreDefinition.t;
  (* [d.as_score_card()] *)
  as_score_card : ScoreDefinition.t -> ScoreCard;
  (* [d.as_cached_score_card(include_definition=..)] *)
  as_cached_score_card : ScoreDefinition.t -> bool -> ScoreCard;
  (* [format_score_card(card)] *)
  format_score_card : ScoreCard -> ScoreCard;
  (* [DashboardResponse] built from the keywords of the formatted dict *)
  DashboardResponse_kwargs : ScoreCard -> DashboardResponse.t;
  (* the empty list [[]] as a card value *)
  empty_list : CardValue;
  (* the [BreakdownItem]s built from the [items] of
     [format_score_card_breakdown(d.get_score_card_breakdown(score_type, g), g)] *)
  breakdown_items :
    ScoreDefinition.t -> ScoreType.t -> string -> list BreakdownItem;
  (* the [IssueItem]s built from the [items] of
     [format_score_card_issues(d.get_score_card_issues(score_type, g, value), g)] *)
  issue_items :
    ScoreDefinition.t -> ScoreType.t -> string -> string -> list IssueItem;
  (* rows of the category/value union query for a project *)
  filter_value_rows : string -> list CategoryValueRow.t;
  (* rows of the column hierarchy query, each as a [ColumnHierarchy] *)
  column_rows : string -> list ColumnHierarchy.t;
  (* the text an f-string prints for a [GroupByCategory] member *)
  format_group_by : GroupByCategory -> string;
}.

(** ** The handler monad: state passing over [World], with exceptions *)
Section Monad.
Context `{Carriers}.

Definition M (A : Type) : Type := World -> (Exn + A) * World.

Definition ret {A} (a : A) : M A := fun w => (inr a, w).

Definition bind {A B} (m : M A) (k : A -> M B) : M B :=
  fun w =>
    match m w with
    | (inl e, w') => (inl e, w')
    | (inr a, w') => k a w'
    end.

Definition raise {A} (e : Exn) : M A := fun w => (inl e, w).

Definition get_world : M World := fun w => (inr w, w).

(** The world after the calls [es] have been made. *)
Definition logged (w : World) (es : list Event) : World :=
  {| projects := projects w;
     definitions := definitions w;
     log := log w ++ es |}.

(** Record a call to a collaborator. *)
Definition call (e : Event) : M unit :=
  fun w => (inr tt, logged w [e]).

(** A pure step that may raise. *)
Definition lift {A} (r : Exn + A) : M A :=
  match r with
  | inl e => raise e
  | inr a => ret a
  end.

(** A [for] loop (or comprehension) collecting one result per element. *)
Fixpoint for_each {A B} (f : A -> M B) (l : list A) : M (list B) :=
  match l with
  | [] => ret []
  | x :: rest =>
      bind (f x) (fun y => bind (for_each f rest) (fun ys => ret (y :: ys)))
  end.

End Monad.

Notation "'let*' x ':=' m 'in' k" := (bind m (fun x => k))
  (at level 10, x pattern, m at level 100, k at level 200).

(** ** [src/dependencies.py] and [src/routers/data_quality.py] *)
Section Router.
Context `{Engine}.

(** [validate_project_code] (dependencies.py, lines 38-54) *)
Definition validate_project_code (project_code : string) : M unit :=
  let* _ := call (ProjectQuery project_code) in
  let* w := get_world in
  if bool_decide (project_code ∈ projects w) then ret tt
  else raise (HTTPException HTTP_404_NOT_FOUND
                ("Project '" +:+ project_code +:+ "' not found")).

(** [validate_dashboard_id] (dependencies.py, lines 57-86) *)
Definition validate_dashboard_id (dashboard_id : string)
  : M ScoreDefinition.t :=
  if UUID_parses dashboard_id then
    let* _ := call (ScoreDefinitionGet dashboard_id) in
    let* w := get_world in
    match definitions w !! dashboard_id with
    | Some dashboard => ret dashboard
    | None =>
        raise (HTTPException HTTP_404_NOT_FOUND
                 ("Dashboard '" +:+ dashboard_id +:+ "' not found"))
    end
  else
    raise (HTTPException HTTP_400_BAD_REQUEST
             ("Invalid dashboard ID format: " +:+ dashboard_id)).

(** [d.save()]: the definition is stored under its id. *)
Definition save (d : ScoreDefinition.t) : M unit :=
  fun w =>
    (inr tt, {| projects := projects w;
                definitions := <[ScoreDefinition.id d := d]> (definitions w);
                log := log w ++ [Save d] |}).

Definition call_as_score_card (d : ScoreDefinition.t) : M ScoreCard :=
  let* _ := call (AsScoreCard (ScoreDefinition.id d)) in
  ret (as_score_card d).

Definition call_as_cached_score_card (d : ScoreDefinition.t)
    (include_definition : bool) : M ScoreCard :=
  let* _ := call (AsCachedScoreCard (ScoreDefinition.id d)
                                    include_definition) in
  ret (as_cached_score_card d include_definition).

(** *** [list_dashboards] (lines 110-188) *)

(** Lines 162-170: the body of the loop over the definitions. *)
Definition full_details (include_history : bool) (d : ScoreDefinition.t)
  : M DashboardResponse.t :=
  let* score_card := call_as_score_card d in
  let* score_card :=
    if include_history && negb (bool_decide (ScoreDefinition.history d = []))
    then
      let* cached_card := call_as_cached_score_card d false in
      ret (<["history" := default empty_list (cached_card !! "history")]>
             score_card)
    else ret score_card in
  let formatted := format_score_card score_card in
  ret (DashboardResponse_kwargs formatted).

(** Lines 175-186: the basic summary of one definition. *)
Definition summary (d : ScoreDefinition.t) : DashboardResponse.t :=
  {| DashboardResponse.id := ScoreDefinition.id d;
     DashboardResponse.project_code := ScoreDefinition.project_code d;
     DashboardResponse.name := ScoreDefinition.name d;
     DashboardResponse.score := None;
     DashboardResponse.cde_score := None;
     DashboardResponse.profiling_score := None;
     DashboardResponse.testing_score := None;
     DashboardResponse.categories_label :=
       match ScoreDefinition.category d with
       | Some c => Some (ScoreCategory_value c)
       | None => None
       end;
     DashboardResponse.categories := [];
     DashboardResponse.history := [] |}.

Definition list_dashboards (project_code name_filter : option string)
    (sorted_by : string) (include_scores include_history : bool)
  : M (list DashboardResponse.t) :=
  let* _ :=
    match project_code with
    | Some code =>
        if PyStr.truthy project_code then validate_project_code code
        else ret tt
    | None => ret tt
    end in
  let history_items := if include_history then 50 else 0 in
  let* _ := call (ScoreDefinitionAll project_code name_filter sorted_by
                                     history_items) in
  let* w := get_world in
  let definitions :=
    ScoreDefinition_all (definitions w) project_code name_filter sorted_by
                        history_items in
  if include_scores || include_history then
    for_each (full_details include_history) definitions
  else
    ret (map summary definitions).

(** *** [get_dashboard_breakdown] (lines 228-290) *)
Definition get_dashboard_breakdown (dashboard_id : string)
    (score_type : ScoreType.t) (group_by : GroupByCategory)
  : M (list BreakdownItem) :=
  let* dashboard := validate_dashboard_id dashboard_id in
  let group_by_value := GroupBy.value group_by in
  let normalized_group_by := GroupBy.normalize group_by_value in
  let* normalized_group_by :=
    lift (GroupBy.check (format_group_by group_by) normalized_group_by) in
  let* _ := call (GetScoreCardBreakdown (ScoreDefinition.id dashboard)
                    score_type normalized_group_by) in
  ret (breakdown_items dashboard score_type normalized_group_by).

(** *** [get_dashboard_issues] (lines 293-355) *)
Definition get_dashboard_issues (dashboard_id : string)
    (score_type : ScoreType.t) (group_by : GroupByCategory)
    (value : string) : M (list IssueItem) :=
  let* dashboard := validate_dashboard_id dashboard_id in
  let group_by_value := GroupBy.value group_by in
  let normalized_group_by := GroupBy.normalize group_by_value in
  let* normalized_group_by :=
    lift (GroupBy.check (format_group_by group_by) normalized_group_by) in
  let* _ := call (GetScoreCardIssues (ScoreDefinition.id dashboard)
                    score_type normalized_group_by value) in
  ret (issue_items dashboard score_type normalized_group_by value).

(** The two routes as a client reaches them: the query strings are first
    coerced to the declared parameter types ([Literal] for [score_type],
    [GroupByCategory] for [group_by]); a string that does not coerce ends
    the request with a validation error and the handler is not called. *)
Definition breakdown_route (dashboard_id score_type group_by : string)
  : M (list BreakdownItem) :=
  match ScoreType.of_string score_type, GroupBy.of_value group_by with
  | Some st, Some g => get_dashboard_breakdown dashboard_id st g
  | None, _ => raise (RequestValidationError "score_type")
  | Some _, None => raise (RequestValidationError "group_by")
  end.

Definition issues_route (dashboard_id score_type group_by value : string)
  : M (list IssueItem) :=
  match ScoreType.of_string score_type, GroupBy.of_value group_by with
  | Some st, Some g => get_dashboard_issues dashboard_id st g value
  | None, _ => raise (RequestValidationError "score_type")
  | Some _, None => raise (RequestValidationError "group_by")
  end.

(** *** [update_dashboard] (lines 358-409) *)

Definition set_name (n : string) (d : ScoreDefinition.t)
  : ScoreDefinition.t :=
  {| ScoreDefinition.id := ScoreDefinition.id d;
     ScoreDefinition.project_code := ScoreDefinition.project_code d;
     ScoreDefinition.name := n;
     ScoreDefinition.total_score := ScoreDefinition.total_score d;
     ScoreDefinition.cde_score := ScoreDefinition.cde_score d;
     ScoreDefinition.category := ScoreDefinition.category d;
     ScoreDefinition.criteria := ScoreDefinition.criteria d;
     ScoreDefinition.history := ScoreDefinition.history d |}.

Definition set_total_score (b : bool) (d : ScoreDefinition.t)
  : ScoreDefinition.t :=
  {| ScoreDefinition.id := ScoreDefinition.id d;
     ScoreDefinition.project_code := ScoreDefinition.project_code d;
     ScoreDefinition.name := ScoreDefinition.name d;
     ScoreDefinition.total_score := b;
     ScoreDefinition.cde_score := ScoreDefinition.cde_score d;
     ScoreDefinition.category := ScoreDefinition.category d;
     ScoreDefinition.criteria := ScoreDefinition.criteria d;
     ScoreDefinition.history := ScoreDefinition.history d |}.

Definition set_cde_score (b : bool) (d : ScoreDefinition.t)
  : ScoreDefinition.t :=
  {| ScoreDefinition.id := ScoreDefinition.id d;
     ScoreDefinition.project_code := ScoreDefinition.project_code d;
     ScoreDefinition.name := ScoreDefinition.name d;
     ScoreDefinition.total_score := ScoreDefinition.total_score d;
     ScoreDefinition.cde_score := b;
     ScoreDefinition.category := ScoreDefinition.category d;
     ScoreDefinition.criteria := ScoreDefinition.criteria d;
     ScoreDefinition.history := ScoreDefinition.history d |}.

Definition set_category (c : ScoreCategory) (d : ScoreDefinition.t)
  : ScoreDefinition.t :=
  {| ScoreDefinition.id := ScoreDefinition.id d;
     ScoreDefinition.project_code := ScoreDefinition.project_code d;
     ScoreDefinition.name := ScoreDefinition.name d;
     ScoreDefinition.total_score := ScoreDefinition.total_score d;
     ScoreDefinition.cde_score := ScoreDefinition.cde_score d;
     ScoreDefinition.category := Some c;
     ScoreDefinition.criteria := ScoreDefinition.criteria d;
     ScoreDefinition.history := ScoreDefinition.history d |}.

Definition set_criteria (c : Criteria) (d : ScoreDefinition.t)
  : ScoreDefinition.t :=
  {| ScoreDefinition.id := ScoreDefinition.id d;
     ScoreDefinition.project_code := ScoreDefinition.project_code d;
     ScoreDefinition.name := ScoreDefinition.name d;
     ScoreDefinition.total_score := ScoreDefinition.total_score d;
     ScoreDefinition.cde_score := ScoreDefinition.cde_score d;
     ScoreDefinition.category := ScoreDefinition.category d;
     ScoreDefinition.criteria := c;
     ScoreDefinition.history := ScoreDefinition.history d |}.

(** Lines 389-396: one dict per filter. *)
Definition filter_data (f : DashboardFilterCreate.t) : FilterData.t :=
  {| FilterData.field := DashboardFilterCreate.field f;
     FilterData.value := DashboardFilterCreate.value f;
     FilterData.others := DashboardFilterCreate.others f |}.

(** Lines 377-400: the assignments made to the fetched definition. *)
Definition apply_updates (updates : DashboardUpdate.t)
    (dashboard : ScoreDefinition.t) : Exn + ScoreDefinition.t :=
  let dashboard :=
    match DashboardUpdate.name updates with
    | Some n => set_name n dashboard
    | None => dashboard
    end in
  let dashboard :=
    match DashboardUpdate.total_score updates with
    | Some b => set_total_score b dashboard
    | None => dashboard
    end in
  let dashboard :=
    match DashboardUpdate.cde_score updates with
    | Some b => set_cde_score b dashboard
    | None => dashboard
    end in
  match
    match DashboardUpdate.category updates with
    | Some c =>
        match ScoreCategory_getitem c with
        | Some sc => inr (set_category sc dashboard)
        | None => inl (KeyError c)
        end
    | None => inr dashboard
    end
  with
  | inl e => inl e
  | inr dashboard =>
      inr match DashboardUpdate.filters updates with
          | Some filters =>
              let filters_data := map filter_data filters in
              set_criteria
                (from_filters filters_data
                   match DashboardUpdate.group_by_field updates with
                   | Some b => b
                   | None => true
                   end)
                dashboard
          | None => dashboard
          end
  end.

Definition update_dashboard (dashboard_id : string)
    (updates : DashboardUpdate.t) : M DashboardResponse.t :=
  let* dashboard := validate_dashboard_id dashboard_id in
  let* dashboard := lift (apply_updates updates dashboard) in
  let* _ := save dashboard in
  let* score_card := call_as_cached_score_card dashboard true in
  let formatted := format_score_card score_card in
  ret (DashboardResponse_kwargs formatted).

(** *** Filter-option helpers (lines 463-537) *)

(** Lines 510-512: one iteration of the loop over the result rows;
    [values] is the [defaultdict(list)]. *)
Definition group_row (values : gmap string (list string))
    (row : CategoryValueRow.t) : gmap string (list string) :=
  if PyStr.truthy (CategoryValueRow.category row)
     && PyStr.truthy (CategoryValueRow.value row)
  then
    match CategoryValueRow.category row, CategoryValueRow.value row with
    | Some c, Some v => <[c := default [] (values !! c) ++ [v]]> values
    | _, _ => values
    end
  else values.

Definition group_rows (results : list CategoryValueRow.t)
  : gmap string (list string) :=
  fold_left group_row results ∅.

Definition get_filter_field_values (project_code : string)
  : M (gmap string (list string)) :=
  let* _ := call (FetchFilterValues project_code) in
  let results := filter_value_rows project_code in
  ret (group_rows results).

Definition get_column_hierarchy (project_code : string)
  : M (list ColumnHierarchy.t) :=
  let* _ := call (FetchColumns project_code) in
  ret (column_rows project_code).

(** *** [get_dashboard_filter_options] (lines 544-660) *)

Definition opt (key label : string) : Option_.t :=
  {| Option_.key := key; Option_.label := label |}.

(** Lines 593-603. *)
Definition filter_fields_metadata_table : list Option_.t :=
  [ opt "table_groups_name" "Table Group";
    opt "data_location" "Data Location";
    opt "data_source" "Data Source";
    opt "source_system" "Source System";
    opt "source_process" "Source Process";
    opt "business_domain" "Business Domain";
    opt "stakeholder_group" "Stakeholder Group";
    opt "transform_level" "Transform Level";
    opt "data_product" "Data Product" ].

(** Lines 615-626. *)
Definition category_options_table : list Option_.t :=
  [ opt "table_groups_name" "Table Group";
    opt "data_location" "Data Location";
    opt "data_source" "Data Source";
    opt "source_system" "Source System";
    opt "source_process" "Source Process";
    opt "business_domain" "Business Domain";
    opt "stakeholder_group" "Stakeholder Group";
    opt "transform_level" "Transform Level";
    opt "dq_dimension" "Quality Dimension";
    opt "data_product" "Data Product" ].

(** Lines 630-644. *)
Definition score_grouping_options_table : list Option_.t :=
  [ opt "column_name" "Column";
    opt "table_name" "Table";
    opt "dq_dimension" "Quality Dimension";
    opt "semantic_data_type" "Semantic Data Type";
    opt "table_groups_name" "Table Group";
    opt "data_location" "Data Location";
    opt "data_source" "Data Source";
    opt "source_system" "Source System";
    opt "source_process" "Source Process";
    opt "business_domain" "Business Domain";
    opt "stakeholder_group" "Stakeholder Group";
    opt "transform_level" "Transform Level";
    opt "data_product" "Data Product" ].

(** Lines 648-651. *)
Definition score_type_options_table : list Option_.t :=
  [ opt "score" "Total Score"; opt "cde_score" "CDE Score" ].

Definition get_dashboard_filter_options (project_code : string)
    (include_filter_values include_columns include_category_options
     include_score_grouping_options include_score_type_options : bool)
  : M FilterOptions.t :=
  let* _ := validate_project_code project_code in
  let filter_fields_metadata :=
    if include_filter_values then filter_fields_metadata_table else [] in
  let* filter_values :=
    if include_filter_values then get_filter_field_values project_code
    else ret ∅ in
  let* columns :=
    if include_columns then get_column_hierarchy project_code
    else ret [] in
  let category_options :=
    if include_category_options then category_options_table else [] in
  let score_grouping_options :=
    if include_score_grouping_options then score_grouping_options_table
    else [] in
  let score_type_options :=
    if include_score_type_options then score_type_options_table else [] in
  ret {| FilterOptions.filter_fields_metadata := filter_fields_metadata;
         FilterOptions.filter_values := filter_values;
         FilterOptions.columns := columns;
         FilterOptions.category_options := category_options;
         FilterOptions.score_grouping_options := score_grouping_options;
         FilterOptions.score_type_options := score_type_options |}.

End Router.

(** ** A concrete engine and world, used to run the handlers *)
Module Sample.

Inductive value : Type :=
  | Text (s : string)
  | Series (l : list Z).

#[global] Instance carriers : Carriers := {|
  ScoreCategory := string;
  Criteria := list FilterData.t * bool;
  DefinitionHistory := Z;
  CardValue := value;
  CategoryScore := string;
  HistoryEntry := Z;
  BreakdownItem := string;
  IssueItem := string;
|}.

Definition dashboard_id : string := "123e4567-e89b-12d3-a456-426614174000".

Definition text_of (card : gmap string value) (k : string) : option string :=
  match card !! k with
  | Some (Text s) => Some s
  | _ => None
  end.

Definition series_of (card : gmap string value) (k : string) : list Z :=
  match card !! k with
  | Some (Series l) => l
  | _ => []
  end.

Definition response_of (card : gmap string value) : DashboardResponse.t :=
  {| DashboardResponse.id := default EmptyString (text_of card "id");
     DashboardResponse.project_code :=
       default EmptyString (text_of card "project_code");
     DashboardResponse.name := default EmptyString (text_of card "name");
     DashboardResponse.score := text_of card "score";
     DashboardResponse.cde_score := text_of card "cde_score";
     DashboardResponse.profiling_score := text_of card "profiling_score";
     DashboardResponse.testing_score := text_of card "testing_score";
     DashboardResponse.categories_label := text_of card "categories_label";
     DashboardResponse.categories := [];
     DashboardResponse.history := series_of card "history" |}.

Definition fresh_card (d : ScoreDefinition.t) : gmap string value :=
  <["id" := Text (ScoreDefinition.id d)]>
    (<["project_code" := Text (ScoreDefinition.project_code d)]>
       (<["name" := Text (ScoreDefinition.name d)]>
          (<["score" := Text "91.5"]>
             (<["profiling_score" := Text "95.0"]>
                (<["testing_score" := Text "88.0"]> ∅))))).

Definition cached_card (d : ScoreDefinition.t) : gmap string value :=
  <["id" := Text (ScoreDefinition.id d)]>
    (<["score" := Text "70.0"]>
       (<["history" := Series (ScoreDefinition.history d)]> ∅)).

#[global] Instance engine : Engine := {|
  UUID_parses s := String.eqb s dashboard_id;
  ScoreCategory_getitem s :=
    if bool_decide (s ∈ ["table_groups_name"; "data_location";
                         "data_source"; "source_system"; "source_process";
                         "business_domain"; "stakeholder_group";
                         "transform_level"; "dq_dimension"; "data_product"])
    then Some s else None;
  ScoreCategory_value c := c;
  from_filters fs b := (fs, b);
  ScoreDefinition_all store project_code _ _ _ :=
    List.filter
      (fun d : ScoreDefinition.t =>
         match project_code with
         | Some c => String.eqb (ScoreDefinition.project_code d) c
         | None => true
         end)
      (map snd (map_to_list store));
  as_score_card := fresh_card;
  as_cached_score_card d _ := cached_card d;
  format_score_card card := card;
  DashboardResponse_kwargs := response_of;
  empty_list := Series [];
  breakdown_items _ _ g := [g];
  issue_items _ _ g v := [g +:+ "=" +:+ v];
  filter_value_rows _ :=
    [ {| CategoryValueRow.category := Some "data_source";
         CategoryValueRow.value := Some "postgres" |};
      {| CategoryValueRow.category := Some "data_source";
         CategoryValueRow.value := Some EmptyString |};
      {| CategoryValueRow.category := Some "data_location";
         CategoryValueRow.value := Some "eu" |};
      {| CategoryValueRow.category := Some "data_source";
         CategoryValueRow.value := Some "snowflake" |} ];
  column_rows _ := [];
  format_group_by := GroupBy.value;
|}.

Definition dashboard : ScoreDefinition.t :=
  {| ScoreDefinition.id := dashboard_id;
     ScoreDefinition.project_code := "DEFAULT";
     ScoreDefinition.name := "Sales";
     ScoreDefinition.total_score := true;
     ScoreDefinition.cde_score := false;
     ScoreDefinition.category := Some "dq_dimension";
     ScoreDefinition.criteria :=
       ([ {| FilterData.field := "data_source";
             FilterData.value := "postgres";
             FilterData.others := [] |} ], false);
     ScoreDefinition.history := [80; 85] |}.

Definition world : World :=
  {| projects := {["DEFAULT"]};
     definitions := {[dashboard_id := dashboard]};
     log := [] |}.

End Sample.

(** ** Definitions used to state the properties *)

(** [c in s] for a one-character [c]. *)
Fixpoint occurs (c : ascii) (s : string) : bool :=
  match s with
  | EmptyString => false
  | String c' s' => Ascii.eqb c' c || occurs c s'
  end.

(** The two handlers with the alias step and the vocabulary check left
    out: the enum value is handed to the engine as it is. *)
Section Direct.
Context `{Engine}.

Definition breakdown_direct (dashboard_id : string)
    (score_type : ScoreType.t) (group_by : string)
  : M (list BreakdownItem) :=
  let* dashboard := validate_dashboard_id dashboard_id in
  let* _ := call (GetScoreCardBreakdown (ScoreDefinition.id dashboard)
                    score_type group_by) in
  ret (breakdown_items dashboard score_type group_by).

Definition issues_direct (dashboard_id : string)
    (score_type : ScoreType.t) (group_by value : string)
  : M (list IssueItem) :=
  let* dashboard := validate_dashboard_id dashboard_id in
  let* _ := call (GetScoreCardIssues (ScoreDefinition.id dashboard)
                    score_type group_by value) in
  ret (issue_items dashboard score_type group_by value).

(** The exception of lines 281-284 / 346-349. *)
Definition invalid_category (e : Exn) : Prop :=
  exists shown,
    e = HTTPException HTTP_400_BAD_REQUEST
          (GroupBy.invalid_group_by_detail shown).

End Direct.

(** What the list handler computes for one definition when scores or
    history are requested: the card handed to the formatter and the engine
    calls made for it. *)
Section Details.
Context `{Engine}.

Definition has_history (d : ScoreDefinition.t) : bool :=
  negb (bool_decide (ScoreDefinition.history d = [])).

Definition details_card (include_history : bool) (d : ScoreDefinition.t)
  : ScoreCard :=
  if include_history && has_history d
  then <["history" :=
           default empty_list (as_cached_score_card d false !! "history")]>
         (as_score_card d)
  else as_score_card d.

Definition details_calls (include_history : bool) (d : ScoreDefinition.t)
  : list Event :=
  AsScoreCard (ScoreDefinition.id d) ::
  (if include_history && has_history d
   then [AsCachedScoreCard (ScoreDefinition.id d) false] else []).

(** The definitions the list handler iterates over. *)
Definition listed (w : World) (project_code name_filter : option string)
    (sorted_by : string) (include_history : bool)
  : list ScoreDefinition.t :=
  ScoreDefinition_all (definitions w) project_code name_filter sorted_by
                      (if include_history then 50 else 0).

(** The project code the list handler validates: a [None] or empty
    [project_code] is not checked. *)
Definition checked_code (project_code : option string) : option string :=
  if PyStr.truthy project_code then project_code else None.

(** The fields a summary item leaves unset. *)
Definition unscored (r : DashboardResponse.t) : Prop :=
  DashboardResponse.score r = None
  /\ DashboardResponse.cde_score r = None
  /\ DashboardResponse.profiling_score r = None
  /\ DashboardResponse.testing_score r = None
  /\ DashboardResponse.categories r = []
  /\ DashboardResponse.history r = [].

(** The non-empty values of the rows of category [c], in row order. *)
Definition observed (c : string) (rows : list CategoryValueRow.t)
  : list string :=
  omap (fun row =>
          match CategoryValueRow.category row, CategoryValueRow.value row with
          | Some c', Some v =>
              if PyStr.truthy (Some c') && PyStr.truthy (Some v)
                 && bool_decide (c' = c)
              then Some v else None
          | _, _ => None
          end) rows.

End Details.

(** ** The remaining handlers

    The create, read, delete and recalculate handlers need a little more
    of the collaborators than the handlers above; it is kept in a second
    interface. *)

(** Schema [DashboardCreate], defaults already filled in. *)
Module DashboardCreate.
Record t : Type := {
  name : string;
  project_code : string;
  total_score : bool;
  cde_score : bool;
  category : option string;
  filters : list DashboardFilterCreate.t;
  group_by_field : bool;
}.
End DashboardCreate.

(** Schema [RecalculateResponse]. *)
Module RecalculateResponse.
Record t `{Carriers} : Type := {
  message : string;
  dashboard : DashboardResponse.t;
}.
End RecalculateResponse.

Class EngineExt `{Engine} : Type := {
  (* [ScoreDefinition()], before any attribute is assigned *)
  ScoreDefinition_blank : ScoreDefinition.t;
  (* the id a new definition receives when it is saved *)
  new_id : World -> string;
  (* [d.as_score_card(save_to_cache=True)] *)
  as_score_card_saving : ScoreDefinition.t -> ScoreCard;
  (* the values [ScoreDefinition.all] takes for [name_filter] and
     [sorted_by] when the caller leaves them out *)
  all_name_filter_default : option string;
  all_sorted_by_default : string;
  (* what [d.delete()] does to the state *)
  delete_definition : ScoreDefinition.t -> World -> World;
  (* what [run_refresh_score_cards_results(definition_id=..,
     add_history_entry=..)] does to the state *)
  refresh_score_cards : string -> bool -> World -> World;
  (* [d.as_cached_score_card(include_definition=..)], read in a state *)
  cached_score_card_in : World -> ScoreDefinition.t -> bool -> ScoreCard;
}.

Section MoreRoutes.
Context `{EngineExt}.

Definition set_project_code (c : string) (d : ScoreDefinition.t)
  : ScoreDefinition.t :=
  {| ScoreDefinition.id := ScoreDefinition.id d;
     ScoreDefinition.project_code := c;
     ScoreDefinition.name := ScoreDefinition.name d;
     ScoreDefinition.total_score := ScoreDefinition.total_score d;
     ScoreDefinition.cde_score := ScoreDefinition.cde_score d;
     ScoreDefinition.category := ScoreDefinition.category d;
     ScoreDefinition.criteria := ScoreDefinition.criteria d;
     ScoreDefinition.history := ScoreDefinition.history d |}.

Definition set_id (i : string) (d : ScoreDefinition.t)
  : ScoreDefinition.t :=
  {| ScoreDefinition.id := i;
     ScoreDefinition.project_code := ScoreDefinition.project_code d;
     ScoreDefinition.name := ScoreDefinition.name d;
     ScoreDefinition.total_score := ScoreDefinition.total_score d;
     ScoreDefinition.cde_score := ScoreDefinition.cde_score d;
     ScoreDefinition.category := ScoreDefinition.category d;
     ScoreDefinition.criteria := ScoreDefinition.criteria d;
     ScoreDefinition.history := ScoreDefinition.history d |}.

(** [save()] of a definition that is not stored yet: it receives its id
    and is stored under it. *)
Definition save_new (d : ScoreDefinition.t) : M ScoreDefinition.t :=
  fun w =>
    let d' := set_id (new_id w) d in
    (inr d', {| projects := projects w;
                definitions := <[new_id w := d']> (definitions w);
                log := log w ++ [Save d'] |}).

(** Lines 76-97: the definition built from the request body. *)
Definition new_definition (dashboard : DashboardCreate.t)
  : Exn + ScoreDefinition.t :=
  let score_def := ScoreDefinition_blank in
  let score_def :=
    set_project_code (DashboardCreate.project_code dashboard) score_def in
  let score_def := set_name (DashboardCreate.name dashboard) score_def in
  let score_def :=
    set_total_score (DashboardCreate.total_score dashboard) score_def in
  let score_def :=
    set_cde_score (DashboardCreate.cde_score dashboard) score_def in
  match
    if PyStr.truthy (DashboardCreate.category dashboard) then
      match DashboardCreate.category dashboard with
      | Some c =>
          match ScoreCategory_getitem c with
          | Some sc => inr (set_category sc score_def)
          | None => inl (KeyError c)
          end
      | None => inr score_def
      end
    else inr score_def
  with
  | inl e => inl e
  | inr score_def =>
      let filters_data :=
        map filter_data (DashboardCreate.filters dashboard) in
      inr (set_criteria
             (from_filters filters_data
                           (DashboardCreate.group_by_field dashboard))
             score_def)
  end.

(** *** [create_dashboard] (lines 57-106) *)
Definition create_dashboard (dashboard : DashboardCreate.t)
  : M DashboardResponse.t :=
  let* _ := validate_project_code (DashboardCreate.project_code dashboard) in
  let* score_def := lift (new_definition dashboard) in
  let* score_def := save_new score_def in
  let* _ := call (AsScoreCard (ScoreDefinition.id score_def)) in
  let score_card := as_score_card_saving score_def in
  let formatted := format_score_card score_card in
  ret (DashboardResponse_kwargs formatted).

(** *** [get_dashboard] (lines 192-225) *)
Definition get_dashboard (dashboard_id : string)
    (include_breakdown include_history : bool) : M DashboardResponse.t :=
  let* dashboard := validate_dashboard_id dashboard_id in
  let* dashboard :=
    if include_history then
      let project_code := Some (ScoreDefinition.project_code dashboard) in
      let* _ := call (ScoreDefinitionAll project_code
                        all_name_filter_default all_sorted_by_default 50) in
      let* w := get_world in
      let definitions :=
        ScoreDefinition_all (definitions w) project_code
          all_name_filter_default all_sorted_by_default 50 in
      ret (default dashboard
             (List.find
                (fun d => String.eqb (ScoreDefinition.id d) dashboard_id)
                definitions))
    else ret dashboard in
  let* score_card := call_as_cached_score_card dashboard true in
  let formatted := format_score_card score_card in
  ret (DashboardResponse_kwargs formatted).

(** *** [delete_dashboard] (lines 412-425) *)
Definition delete_dashboard (dashboard_id : string) : M unit :=
  let* dashboard := validate_dashboard_id dashboard_id in
  fun w => (inr tt, delete_definition dashboard w).

(** *** [recalculate_dashboard] (lines 428-457) *)
Definition recalculate_dashboard (dashboard_id : string)
  : M RecalculateResponse.t :=
  let* dashboard := validate_dashboard_id dashboard_id in
  let* _ := (fun w => (inr tt, refresh_score_cards dashboard_id true w)) in
  let* w := get_world in
  let* _ := call (AsCachedScoreCard (ScoreDefinition.id dashboard) true) in
  let score_card := cached_score_card_in w dashboard true in
  let formatted := format_score_card score_card in
  ret {| RecalculateResponse.message :=
           "Dashboard scores recalculated successfully";
         RecalculateResponse.dashboard := DashboardResponse_kwargs formatted |}.

End MoreRoutes.

(** The categories of the filter-value query (lines 477-487). *)
Definition categories : list string :=
  [ "table_groups_name"; "data_location"; "data_source"; "source_system";
    "source_process"; "business_domain"; "stakeholder_group";
    "transform_level"; "data_product" ].

(** The label a table gives to a key. *)
Definition label_of (table : list Option_.t) (key : string) : option string :=
  Option_.label <$> List.find (fun o => String.eqb (Option_.key o) key) table.

(** ** [get_db_session] (dependencies.py, lines 20-35)

    The dependency wraps the endpoint: the session is created and bound
    to the thread-local wrapper, the endpoint runs, and the [finally] block
    unbinds the wrapper and closes the session on every exit. *)
Module DbSession.
Section Bracket.
Variable Session : Type.

Record Thread : Type := {
  current_session : option Session;   (* [_current_session_wrapper.value] *)
  closed : list Session;              (* sessions [close()] was called on *)
}.

(** An endpoint receives the yielded session and reads the wrapper. *)
Definition Endpoint (A : Type) : Type :=
  Session -> option Session -> Exn + A.

Definition get_db_session {A} (session : Session) (endpoint : Endpoint A)
    (t : Thread) : (Exn + A) * Thread :=
  let t := {| current_session := Some session; closed := closed t |} in
  let result := endpoint session (current_session t) in
  (result, {| current_session := None; closed := closed t ++ [session] |}).

(** Requests served one after the other on a thread, each with the
    session [DBSession()] gave it. *)
Fixpoint serve {A} (requests : list (Session * Endpoint A)) (t : Thread)
  : list (Exn + A) * Thread :=
  match requests with
  | [] => ([], t)
  | (session, endpoint) :: rest =>
      let '(r, t') := get_db_session session endpoint t in
      let '(rs, t'') := serve rest t' in
      (r :: rs, t'')
  end.

End Bracket.
End DbSession.

(** The sample engine, extended. *)
Module SampleExt.

Definition created_id : string := "9f8b7c6d-1a2b-4c3d-8e4f-5a6b7c8d9e0f".

#[global] Instance engine_ext : EngineExt := {|
  ScoreDefinition_blank :=
    {| ScoreDefinition.id := EmptyString;
       ScoreDefinition.project_code := EmptyString;
       ScoreDefinition.name := EmptyString;
       ScoreDefinition.total_score := true;
       ScoreDefinition.cde_score := false;
       ScoreDefinition.category := None;
       ScoreDefinition.criteria := ([], true);
       ScoreDefinition.history := [] |};
  new_id _ := created_id;
  as_score_card_saving := Sample.fresh_card;
  all_name_filter_default := None;
  all_sorted_by_default := "name";
  delete_definition d w :=
    {| projects := projects w;
       definitions := delete (ScoreDefinition.id d) (definitions w);
       log := log w |};
  refresh_score_cards _ _ w := w;
  cached_score_card_in _ d _ := Sample.cached_card d;
|}.

Definition body : DashboardCreate.t :=
  {| DashboardCreate.name := "Orders";
     DashboardCreate.project_code := "DEFAULT";
     DashboardCreate.total_score := true;
     DashboardCreate.cde_score := true;
     DashboardCreate.category := Some "data_source";
     DashboardCreate.filters :=
       [ {| DashboardFilterCreate.field := "data_source";
            DashboardFilterCreate.value := "postgres";
            DashboardFilterCreate.others := [] |} ];
     DashboardCreate.group_by_field := false |}.

End SampleExt.

(** A computation that leaves the stored state alone: all it does to the
    world is append calls to the log. *)
Definition appends_only `{Carriers} {A : Type} (m : M A) : Prop :=
  forall w, exists es, snd (m w) = logged w es.

(** * Properties *)

(** ** The group-by vocabulary *)

Lemma value_in_valid_categories (g : GroupByCategory) :
  GroupBy.value g ∈ GroupBy.valid_categories.
Proof. destruct g; vm_compute; set_solver. Qed.

Lemma valid_categories_values :
  map GroupBy.value GroupBy.members = GroupBy.valid_categories.
Proof. reflexivity. Qed.

Lemma of_value_value (g : GroupByCategory) :
  GroupBy.of_value (GroupBy.value g) = Some g.
Proof. destruct g; reflexivity. Qed.

Lemma of_value_Some (s : string) (g : GroupByCategory) :
  GroupBy.of_value s = Some g -> GroupBy.value g = s.
Proof.
  unfold GroupBy.of_value. intros Hfind.
  apply find_some in Hfind as [_ Heq].
  by apply String.eqb_eq in Heq.
Qed.

Lemma of_value_is_Some (s : string) :
  is_Some (GroupBy.of_value s) <-> s ∈ GroupBy.valid_categories.
Proof.
  split.
  - intros [g Hg]. apply of_value_Some in Hg as <-.
    apply value_in_valid_categories.
  - rewrite <- valid_categories_values. intros Hin.
    apply list_elem_of_fmap in Hin as (g & -> & _).
    rewrite of_value_value. by eexists.
Qed.

Lemma normalize_value (g : GroupByCategory) :
  GroupBy.normalize (GroupBy.value g) = GroupBy.value g.
Proof. destruct g; vm_compute; reflexivity. Qed.

Lemma check_valid (shown t : string) :
  t ∈ GroupBy.valid_categories -> GroupBy.check shown t = inr t.
Proof. intros Hin. unfold GroupBy.check. by rewrite bool_decide_eq_true_2. Qed.

Lemma check_invalid (shown t : string) :
  t ∉ GroupBy.valid_categories ->
  GroupBy.check shown t =
    inl (HTTPException 400 (GroupBy.invalid_group_by_detail shown)).
Proof. intros Hin. unfold GroupBy.check. by rewrite bool_decide_eq_false_2. Qed.

(** *** The alias key never contains an underscore *)

Lemma occurs_rev_app (c : ascii) (s1 s2 : string) :
  occurs c (String.rev_app s1 s2) = occurs c s1 || occurs c s2.
Proof.
  revert s2. induction s1 as [|a s1 IH]; intros s2; simpl; [done|].
  rewrite IH. simpl. by destruct (Ascii.eqb a c), (occurs c s1), (occurs c s2).
Qed.

Lemma occurs_rev (c : ascii) (s : string) :
  occurs c (String.rev s) = occurs c s.
Proof. unfold String.rev. rewrite occurs_rev_app. simpl. by rewrite orb_false_r. Qed.

Lemma occurs_lstrip (c : ascii) (s : string) :
  occurs c s = false -> occurs c (PyStr.lstrip s) = false.
Proof.
  induction s as [|a s IH]; simpl; [done|].
  intros Hocc. apply orb_false_iff in Hocc as [Ha Hs].
  destruct (PyStr.isspace a); simpl; [by apply IH|].
  by rewrite Ha, Hs.
Qed.

Lemma occurs_strip (c : ascii) (s : string) :
  occurs c s = false -> occurs c (PyStr.strip s) = false.
Proof.
  intros Hocc. unfold PyStr.strip, PyStr.rstrip.
  rewrite occurs_rev. apply occurs_lstrip. rewrite occurs_rev.
  by apply occurs_lstrip.
Qed.

Lemma occurs_replace (s : string) :
  occurs "_" (PyStr.replace "_" " " s) = false.
Proof.
  induction s as [|a s IH]; simpl; [done|].
  rewrite IH, orb_false_r.
  destruct (Ascii.eqb a "_") eqn:Ha; [done|exact Ha].
Qed.

Lemma alias_key_no_underscore (s : string) :
  occurs "_" (GroupBy.alias_key s) = false.
Proof. unfold GroupBy.alias_key. apply occurs_strip, occurs_replace. Qed.

Lemma alias_key_not_table_group (s : string) :
  GroupBy.alias_key s <> "table_group".
Proof.
  intros Heq. pose proof (alias_key_no_underscore s) as Hocc.
  rewrite Heq in Hocc. discriminate Hocc.
Qed.

(** The alias step, as the specification words it: the keys with a space
    or with nothing between the two words resolve, everything else passes
    through. *)
Lemma normalize_spec (s : string) :
  GroupBy.normalize s =
    if bool_decide (GroupBy.alias_key s ∈ ["table group"; "tablegroup"])
    then "table_groups_name" else s.
Proof.
  unfold GroupBy.normalize, GroupBy.group_by_mapping.
  pose proof (alias_key_not_table_group s) as Hne.
  case_bool_decide as Hin.
  - apply elem_of_cons in Hin as [-> | Hin]; [done|].
    apply elem_of_cons in Hin as [-> | Hin]; [done|].
    by apply elem_of_nil in Hin.
  - rewrite !lookup_insert_ne, lookup_empty; [done | | |].
    + congruence.
    + intros Heq. apply Hin. rewrite <- Heq. set_solver.
    + intros Heq. apply Hin. rewrite <- Heq. set_solver.
Qed.

(** ** The breakdown and issues handlers *)
Section GroupByProperties.
Context `{Engine}.

Lemma get_dashboard_breakdown_direct dashboard_id score_type g w :
  get_dashboard_breakdown dashboard_id score_type g w
  = breakdown_direct dashboard_id score_type (GroupBy.value g) w.
Proof.
  unfold get_dashboard_breakdown, breakdown_direct, bind.
  destruct (validate_dashboard_id dashboard_id w) as [[e|d] w']; [done|].
  rewrite normalize_value, check_valid by apply value_in_valid_categories.
  reflexivity.
Qed.

Lemma get_dashboard_issues_direct dashboard_id score_type g value w :
  get_dashboard_issues dashboard_id score_type g value w
  = issues_direct dashboard_id score_type (GroupBy.value g) value w.
Proof.
  unfold get_dashboard_issues, issues_direct, bind.
  destruct (validate_dashboard_id dashboard_id w) as [[e|d] w']; [done|].
  rewrite normalize_value, check_valid by apply value_in_valid_categories.
  reflexivity.
Qed.

(** The only exceptions of [validate_dashboard_id] are its own 400 and
    404, neither of which is the invalid-category one. *)
Lemma validate_dashboard_id_exn dashboard_id w e w' :
  validate_dashboard_id dashboard_id w = (inl e, w') ->
  ~ invalid_category e.
Proof.
  unfold validate_dashboard_id, bind, call, get_world, raise, ret.
  intros Hrun [shown Hshown]. subst e.
  destruct (UUID_parses dashboard_id); simpl in Hrun.
  - destruct (definitions w !! dashboard_id); simplify_eq.
  - simplify_eq.
Qed.

Lemma breakdown_direct_exn dashboard_id score_type g w e w' :
  breakdown_direct dashboard_id score_type g w = (inl e, w') ->
  ~ invalid_category e.
Proof.
  unfold breakdown_direct, bind.
  destruct (validate_dashboard_id dashboard_id w) as [[e0|d] w0] eqn:Hv.
  - intros [= <- <-]. by eapply validate_dashboard_id_exn.
  - discriminate.
Qed.

Lemma issues_direct_exn dashboard_id score_type g value w e w' :
  issues_direct dashboard_id score_type g value w = (inl e, w') ->
  ~ invalid_category e.
Proof.
  unfold issues_direct, bind.
  destruct (validate_dashboard_id dashboard_id w) as [[e0|d] w0] eqn:Hv.
  - intros [= <- <-]. by eapply validate_dashboard_id_exn.
  - discriminate.
Qed.

(** C9.  For every member of [GroupByCategory] the alias key of its
    value is not in the alias table, so normalisation returns the value
    unchanged and the vocabulary check passes: both handlers behave as if
    the alias step and the check were absent, and no run of either
    raises the invalid-category 400. *)
Theorem enum_member_skips_alias_and_check (g : GroupByCategory) :
  GroupBy.group_by_mapping !! GroupBy.alias_key (GroupBy.value g) = None
  /\ GroupBy.normalize (GroupBy.value g) = GroupBy.value g
  /\ (forall shown,
        GroupBy.check shown (GroupBy.normalize (GroupBy.value g))
        = inr (GroupBy.value g))
  /\ (forall dashboard_id score_type w,
        get_dashboard_breakdown dashboard_id score_type g w
        = breakdown_direct dashboard_id score_type (GroupBy.value g) w)
  /\ (forall dashboard_id score_type value w,
        get_dashboard_issues dashboard_id score_type g value w
        = issues_direct dashboard_id score_type (GroupBy.value g) value w)
  /\ (forall dashboard_id score_type w e w',
        get_dashboard_breakdown dashboard_id score_type g w = (inl e, w') ->
        ~ invalid_category e)
  /\ (forall dashboard_id score_type value w e w',
        get_dashboard_issues dashboard_id score_type g value w
        = (inl e, w') ->
        ~ invalid_category e).
Proof.
  split; [by destruct g; vm_compute|].
  split; [apply normalize_value|].
  split.
  { intros shown. rewrite normalize_value.
    apply check_valid, value_in_valid_categories. }
  split; [intros; apply get_dashboard_breakdown_direct|].
  split; [intros; apply get_dashboard_issues_direct|].
  split.
  - intros dashboard_id score_type w e w'.
    rewrite get_dashboard_breakdown_direct. apply breakdown_direct_exn.
  - intros dashboard_id score_type value w e w'.
    rewrite get_dashboard_issues_direct. apply issues_direct_exn.
Qed.

(** What the routes do with a raw [group_by] string. *)
Lemma breakdown_route_spec dashboard_id score_type raw w :
  breakdown_route dashboard_id score_type raw w =
    match ScoreType.of_string score_type with
    | None => (inl (RequestValidationError "score_type"), w)
    | Some st =>
        if bool_decide (raw ∈ GroupBy.valid_categories)
        then breakdown_direct dashboard_id st raw w
        else (inl (RequestValidationError "group_by"), w)
    end.
Proof.
  unfold breakdown_route.
  destruct (ScoreType.of_string score_type) as [st|]; [|done].
  destruct (GroupBy.of_value raw) as [g|] eqn:Hg.
  - rewrite bool_decide_eq_true_2
      by (apply of_value_is_Some; by eexists).
    apply of_value_Some in Hg as <-.
    apply get_dashboard_breakdown_direct.
  - rewrite bool_decide_eq_false_2; [done|].
    intros Hin. apply of_value_is_Some in Hin as [g' Hg'].
    congruence.
Qed.

Lemma issues_route_spec dashboard_id score_type raw value w :
  issues_route dashboard_id score_type raw value w =
    match ScoreType.of_string score_type with
    | None => (inl (RequestValidationError "score_type"), w)
    | Some st =>
        if bool_decide (raw ∈ GroupBy.valid_categories)
        then issues_direct dashboard_id st raw value w
        else (inl (RequestValidationError "group_by"), w)
    end.
Proof.
  unfold issues_route.
  destruct (ScoreType.of_string score_type) as [st|]; [|done].
  destruct (GroupBy.of_value raw) as [g|] eqn:Hg.
  - rewrite bool_decide_eq_true_2
      by (apply of_value_is_Some; by eexists).
    apply of_value_Some in Hg as <-.
    apply get_dashboard_issues_direct.
  - rewrite bool_decide_eq_false_2; [done|].
    intros Hin. apply of_value_is_Some in Hin as [g' Hg'].
    congruence.
Qed.

(** A canonical token is its own normal form. *)
Lemma normalize_valid raw :
  raw ∈ GroupBy.valid_categories -> GroupBy.normalize raw = raw.
Proof.
  rewrite <- valid_categories_values. intros Hin.
  apply list_elem_of_fmap in Hin as (g & -> & _). apply normalize_value.
Qed.

(** C1 (amended).  The alias step of the handlers, as a function on
    strings, sends [table_group] to [table_groups_name]: it lower-cases,
    replaces underscores by spaces and trims, resolves the keys
    [table group] and [tablegroup], and leaves every other token as it
    is.  Their vocabulary check returns a normalised token that is one of
    the 13 entries and otherwise raises a 400 whose detail quotes the
    [group_by] argument and lists the 13 entries.  At the routes the
    [group_by] string is first coerced to [GroupByCategory]: a canonical
    token is accepted and used unchanged, and a token that is not
    canonical after alias resolution is refused at coercion, with a
    request-validation error and before any lookup or engine call. *)
Theorem group_by_alias_and_vocabulary_gate
    (dashboard_id score_type raw value shown : string) (w : World) :
  GroupBy.normalize "table_group" = "table_groups_name"
  /\ GroupBy.normalize raw =
       (if bool_decide (GroupBy.alias_key raw ∈ ["table group"; "tablegroup"])
        then "table_groups_name" else raw)
  /\ GroupBy.check shown (GroupBy.normalize raw) =
       (if bool_decide (GroupBy.normalize raw ∈ GroupBy.valid_categories)
        then inr (GroupBy.normalize raw)
        else inl (HTTPException 400
               ("Invalid group_by parameter: '" +:+ shown +:+
                "'. Must be one of: column_name, table_name, dq_dimension, semantic_data_type, table_groups_name, data_location, data_source, source_system, source_process, business_domain, stakeholder_group, transform_level, data_product")))
  /\ length GroupBy.valid_categories = 13%nat
  /\ (raw ∈ GroupBy.valid_categories ->
      breakdown_route dashboard_id score_type raw w =
        match ScoreType.of_string score_type with
        | Some st => breakdown_direct dashboard_id st raw w
        | None => (inl (RequestValidationError "score_type"), w)
        end
      /\ issues_route dashboard_id score_type raw value w =
        match ScoreType.of_string score_type with
        | Some st => issues_direct dashboard_id st raw value w
        | None => (inl (RequestValidationError "score_type"), w)
        end)
  /\ (GroupBy.normalize raw ∉ GroupBy.valid_categories ->
      breakdown_route dashboard_id score_type raw w =
        (inl (RequestValidationError
                (match ScoreType.of_string score_type with
                 | Some _ => "group_by"
                 | None => "score_type"
                 end)), w)
      /\ issues_route dashboard_id score_type raw value w =
        (inl (RequestValidationError
                (match ScoreType.of_string score_type with
                 | Some _ => "group_by"
                 | None => "score_type"
                 end)), w)).
Proof.
  split; [by vm_compute|].
  split; [apply normalize_spec|].
  split; [reflexivity|].
  split; [reflexivity|].
  rewrite breakdown_route_spec, issues_route_spec.
  split.
  - intros Hin. rewrite bool_decide_eq_true_2 by done.
    by destruct (ScoreType.of_string score_type).
  - intros Hnot.
    assert (raw ∉ GroupBy.valid_categories) as Hraw.
    { intros Hin. apply Hnot. by rewrite normalize_valid. }
    rewrite bool_decide_eq_false_2 by done.
    by destruct (ScoreType.of_string score_type).
Qed.

End GroupByProperties.

(** The refusal half of the gate, run on a misspelt token. *)
Lemma group_by_alias_and_vocabulary_gate_witness :
  (GroupBy.normalize "semantic_data_typo" ∉ GroupBy.valid_categories)
  /\ breakdown_route Sample.dashboard_id "score" "semantic_data_typo"
       Sample.world
     = (inl (RequestValidationError "group_by"), Sample.world)
  /\ issues_route Sample.dashboard_id "score" "semantic_data_typo" "demo"
       Sample.world
     = (inl (RequestValidationError "group_by"), Sample.world).
Proof.
  assert (GroupBy.normalize "semantic_data_typo" ∉ GroupBy.valid_categories)
    as Hnot by (apply (bool_decide_eq_false_1 _); vm_compute; reflexivity).
  split; [exact Hnot|].
  destruct (group_by_alias_and_vocabulary_gate
              Sample.dashboard_id "score" "semantic_data_typo" "demo"
              "semantic_data_typo" Sample.world)
    as (_ & _ & _ & _ & _ & Hrefused).
  exact (Hrefused Hnot).
Defined.

(** C1 as stated fails: [group_by=table_group] is not accepted by either
    route (no run reaches the engine with [table_groups_name]), and a
    misspelt token is not answered with the handlers' invalid-category
    400. *)
Lemma table_group_not_accepted :
  ~ (exists items w',
       breakdown_route Sample.dashboard_id "score" "table_group" Sample.world
       = (inr items, w'))
  /\ ~ (exists items w',
       issues_route Sample.dashboard_id "score" "table_group" "demo"
         Sample.world
       = (inr items, w'))
  /\ breakdown_route Sample.dashboard_id "score" "table_group" Sample.world
     = (inl (RequestValidationError "group_by"), Sample.world)
  /\ ~ (exists e w',
       breakdown_route Sample.dashboard_id "score" "semantic_data_typo"
         Sample.world
       = (inl e, w') /\ invalid_category e).
Proof.
  split; [intros (items & w' & Hrun); vm_compute in Hrun; discriminate|].
  split; [intros (items & w' & Hrun); vm_compute in Hrun; discriminate|].
  split; [reflexivity|].
  intros (e & w' & Hrun & shown & ->). vm_compute in Hrun. discriminate.
Qed.

(** ** The list handler *)
Section ListProperties.
Context `{Engine}.

Lemma logged_nil (w : World) : logged w [] = w.
Proof. destruct w. unfold logged. simpl. by rewrite app_nil_r. Qed.

Lemma logged_logged (w : World) (es1 es2 : list Event) :
  logged (logged w es1) es2 = logged w (es1 ++ es2).
Proof. unfold logged. simpl. by rewrite app_assoc. Qed.

Lemma validate_project_code_run project_code w :
  validate_project_code project_code w =
    (if bool_decide (project_code ∈ projects w) then inr tt
     else inl (HTTPException 404
                 ("Project '" +:+ project_code +:+ "' not found")),
     logged w [ProjectQuery project_code]).
Proof.
  unfold validate_project_code, bind, call, get_world. simpl.
  by case_bool_decide.
Qed.

Lemma full_details_run include_history d w :
  full_details include_history d w =
    (inr (DashboardResponse_kwargs
            (format_score_card (details_card include_history d))),
     logged w (details_calls include_history d)).
Proof.
  unfold full_details, details_card, details_calls, has_history,
    call_as_score_card, call_as_cached_score_card, bind, call, ret.
  destruct (include_history
            && negb (bool_decide (ScoreDefinition.history d = []))); simpl.
  - by rewrite logged_logged.
  - done.
Qed.

Lemma for_each_full_details include_history l w :
  for_each (full_details include_history) l w =
    (inr (map (fun d => DashboardResponse_kwargs
                 (format_score_card (details_card include_history d))) l),
     logged w (concat (map (details_calls include_history) l))).
Proof.
  revert w. induction l as [|d l IH]; intros w; simpl.
  - by rewrite logged_nil.
  - unfold bind at 1. rewrite full_details_run.
    unfold bind at 1. rewrite IH. unfold ret.
    by rewrite logged_logged.
Qed.

(** The whole handler: a missing project ends the request after the
    project query; otherwise the definitions are fetched and turned into
    full details or summaries. *)
Lemma list_dashboards_run (project_code name_filter : option string)
    (sorted_by : string) (include_scores include_history : bool) w :
  let defs := listed w project_code name_filter sorted_by include_history in
  let fetch := ScoreDefinitionAll project_code name_filter sorted_by
                 (if include_history then 50 else 0) in
  let answer (pre : list Event) :=
    if include_scores || include_history then
      (inr (map (fun d => DashboardResponse_kwargs
                   (format_score_card (details_card include_history d)))
                defs),
       logged w (pre ++ fetch ::
                 concat (map (details_calls include_history) defs)))
    else (inr (map summary defs), logged w (pre ++ [fetch])) in
  list_dashboards project_code name_filter sorted_by include_scores
                  include_history w =
    match checked_code project_code with
    | Some code =>
        if bool_decide (code ∈ projects w)
        then answer [ProjectQuery code]
        else (inl (HTTPException 404
                     ("Project '" +:+ code +:+ "' not found")),
              logged w [ProjectQuery code])
    | None => answer []
    end.
Proof.
  intros defs fetch answer.
  unfold list_dashboards, checked_code, listed in *.
  destruct project_code as [code|].
  - destruct (PyStr.truthy (Some code)).
    + unfold bind at 1. rewrite validate_project_code_run.
      case_bool_decide; [|done].
      unfold answer, bind, call, get_world. simpl. fold fetch.
      destruct (include_scores || include_history).
      * rewrite for_each_full_details. by rewrite !logged_logged.
      * unfold ret. by rewrite !logged_logged.
    + unfold answer, bind, call, get_world, ret. simpl. fold fetch.
      destruct (include_scores || include_history).
      * rewrite for_each_full_details. by rewrite !logged_logged.
      * done.
  - unfold answer, bind, call, get_world, ret. simpl. fold fetch.
    destruct (include_scores || include_history).
    + rewrite for_each_full_details. by rewrite !logged_logged.
    + done.
Qed.

Lemma summary_unscored d : unscored (summary d).
Proof. by repeat split. Qed.

Lemma details_calls_app include_history (l : list ScoreDefinition.t) d :
  d ∈ l ->
  forall e, e ∈ details_calls include_history d ->
            e ∈ concat (map (details_calls include_history) l).
Proof.
  intros Hd e He. apply list_elem_of_In, in_concat.
  exists (details_calls include_history d). split.
  - apply in_map. by apply list_elem_of_In.
  - by apply list_elem_of_In.
Qed.

(** C5.  With [include_scores] and [include_history] both false the
    list handler makes no fresh or cached score-card call, whatever the
    outcome; when the project check passes (or is skipped) it returns one
    summary per definition, each with [score], [cde_score],
    [profiling_score] and [testing_score] null and [categories] and
    [history] empty; otherwise it fails with the 404 of the project
    check. *)
Theorem list_without_scores_or_history
    (project_code name_filter : option string) (sorted_by : string)
    (w : World) :
  exists added,
    snd (list_dashboards project_code name_filter sorted_by false false w)
    = logged w added
    /\ Forall (fun e => is_score_computation e = false) added
    /\ match fst (list_dashboards project_code name_filter sorted_by
                                  false false w) with
       | inr items =>
           items = map summary
                     (listed w project_code name_filter sorted_by false)
           /\ Forall unscored items
       | inl e =>
           exists code,
             checked_code project_code = Some code
             /\ (code ∉ projects w)
             /\ e = HTTPException 404
                      ("Project '" +:+ code +:+ "' not found")
       end
    /\ ((forall code, checked_code project_code = Some code ->
                      code ∈ projects w) ->
        exists items,
          fst (list_dashboards project_code name_filter sorted_by
                               false false w) = inr items).
Proof.
  rewrite list_dashboards_run. simpl.
  destruct (checked_code project_code) as [code|] eqn:Hcode.
  - case_bool_decide as Hin; simpl.
    + eexists. split; [reflexivity|].
      split; [by repeat constructor|].
      split; [|by eexists].
      split; [done|]. apply Forall_forall. intros r Hr.
      apply list_elem_of_fmap in Hr as (d & -> & _). apply summary_unscored.
    + eexists. split; [reflexivity|].
      split; [by repeat constructor|].
      split; [by exists code|].
      intros Hall. by destruct Hin; apply Hall.
  - simpl. eexists. split; [reflexivity|].
    split; [by repeat constructor|].
    split; [|by eexists].
    split; [done|]. apply Forall_forall. intros r Hr.
    apply list_elem_of_fmap in Hr as (d & -> & _). apply summary_unscored.
Qed.

(** C2.  In the list handler with [include_scores] and
    [include_history] both set, a definition that has history is
    answered from the fresh card: the cached card, requested without its
    definition, supplies the value stored under [history] (the empty
    list when it has none), and every other key of the card handed to the
    formatter holds what the fresh computation returned. *)
Theorem list_history_merge
    (project_code name_filter : option string) (sorted_by : string)
    (w : World) (i : nat) (d : ScoreDefinition.t) :
  listed w project_code name_filter sorted_by true !! i = Some d ->
  ScoreDefinition.history d <> [] ->
  (forall code, checked_code project_code = Some code ->
                code ∈ projects w) ->
  exists items w' card,
    list_dashboards project_code name_filter sorted_by true true w
    = (inr items, w')
    /\ length items
       = length (listed w project_code name_filter sorted_by true)
    /\ items !! i
       = Some (DashboardResponse_kwargs (format_score_card card))
    /\ card !! "history"
       = Some (default empty_list
                 (as_cached_score_card d false !! "history"))
    /\ (forall k, k <> "history" -> card !! k = as_score_card d !! k)
    /\ AsScoreCard (ScoreDefinition.id d) ∈ log w'
    /\ AsCachedScoreCard (ScoreDefinition.id d) false ∈ log w'.
Proof.
  intros Hd Hhist Hproj.
  assert (has_history d = true) as Hhas.
  { unfold has_history. by rewrite bool_decide_eq_false_2. }
  assert (forall pre,
    let w' := logged w (pre ++
                ScoreDefinitionAll project_code name_filter sorted_by 50 ::
                concat (map (details_calls true)
                  (listed w project_code name_filter sorted_by true))) in
    AsScoreCard (ScoreDefinition.id d) ∈ log w'
    /\ AsCachedScoreCard (ScoreDefinition.id d) false ∈ log w') as Hlog.
  { intros pre. simpl.
    assert (d ∈ listed w project_code name_filter sorted_by true) as Hin
      by (by eapply list_elem_of_lookup_2).
    split; apply elem_of_app; right; apply elem_of_app; right;
      apply elem_of_cons; right;
      apply (details_calls_app true _ d Hin);
      unfold details_calls; rewrite Hhas; simpl; set_solver. }
  pose proof (list_dashboards_run project_code name_filter sorted_by
                true true w) as Hrun.
  simpl in Hrun.
  assert (exists pre,
    list_dashboards project_code name_filter sorted_by true true w =
      (inr (map (fun d => DashboardResponse_kwargs
                   (format_score_card (details_card true d)))
              (listed w project_code name_filter sorted_by true)),
       logged w (pre ++
         ScoreDefinitionAll project_code name_filter sorted_by 50 ::
         concat (map (details_calls true)
           (listed w project_code name_filter sorted_by true)))))
    as [pre Hok].
  { rewrite Hrun. destruct (checked_code project_code) as [code|].
    - rewrite bool_decide_eq_true_2 by (by apply Hproj).
      by exists [ProjectQuery code].
    - by exists []. }
  eexists _, _, (details_card true d).
  split; [exact Hok|].
  split; [by rewrite length_map|].
  split; [by rewrite list_lookup_fmap, Hd|].
  unfold details_card. rewrite Hhas. simpl.
  split; [by rewrite lookup_insert_eq|].
  split; [intros k Hk; by rewrite lookup_insert_ne|].
  apply Hlog.
Qed.

End ListProperties.

(** The merge, run on the sample world: the listed item is built from the
    fresh card with the stored history series put in. *)
Lemma list_history_merge_witness :
  listed Sample.world (Some "DEFAULT") None "name" true !! 0%nat
  = Some Sample.dashboard
  /\ ScoreDefinition.history Sample.dashboard <> []
  /\ exists items w' card,
       list_dashboards (Some "DEFAULT") None "name" true true Sample.world
       = (inr items, w')
       /\ items !! 0%nat
          = Some (DashboardResponse_kwargs (format_score_card card))
       /\ card !! "history" = Some (Sample.Series [80; 85])
       /\ card !! "score" = Some (Sample.Text "91.5").
Proof.
  assert (listed Sample.world (Some "DEFAULT") None "name" true !! 0%nat
          = Some Sample.dashboard) as Hlisted by (vm_compute; reflexivity).
  assert (ScoreDefinition.history Sample.dashboard <> []) as Hhist
    by discriminate.
  assert (forall code, checked_code (Some "DEFAULT") = Some code ->
                       code ∈ projects Sample.world) as Hproj.
  { intros code [= <-]. by apply elem_of_singleton. }
  split; [exact Hlisted|]. split; [exact Hhist|].
  destruct (list_history_merge (Some "DEFAULT") None "name" Sample.world
              0 Sample.dashboard Hlisted Hhist Hproj)
    as (items & w' & card & Hrun & _ & Hitem & Hcached & Hfresh & _).
  exists items, w', card.
  split; [exact Hrun|]. split; [exact Hitem|]. split; [exact Hcached|].
  rewrite Hfresh by discriminate. reflexivity.
Defined.

(** ** The update handler *)
Section UpdateProperties.
Context `{Engine}.

Lemma validate_dashboard_id_found dashboard_id d w :
  UUID_parses dashboard_id = true ->
  definitions w !! dashboard_id = Some d ->
  validate_dashboard_id dashboard_id w
  = (inr d, logged w [ScoreDefinitionGet dashboard_id]).
Proof.
  intros Hid Hd. unfold validate_dashboard_id, bind, call, get_world.
  rewrite Hid. simpl. by rewrite Hd.
Qed.

(** The handler once the definition has been found. *)
Lemma update_dashboard_run dashboard_id updates d w :
  UUID_parses dashboard_id = true ->
  definitions w !! dashboard_id = Some d ->
  update_dashboard dashboard_id updates w =
    match apply_updates updates d with
    | inr d' =>
        (inr (DashboardResponse_kwargs
                (format_score_card (as_cached_score_card d' true))),
         {| projects := projects w;
            definitions := <[ScoreDefinition.id d' := d']> (definitions w);
            log := log w ++ [ScoreDefinitionGet dashboard_id; Save d';
                             AsCachedScoreCard (ScoreDefinition.id d') true]
         |})
    | inl e => (inl e, logged w [ScoreDefinitionGet dashboard_id])
    end.
Proof.
  intros Hid Hd. unfold update_dashboard. unfold bind at 1.
  rewrite (validate_dashboard_id_found _ d) by done.
  unfold bind at 1.
  destruct (apply_updates updates d) as [e|d']; simpl; [done|].
  unfold bind, save, call_as_cached_score_card, call, ret, logged, bind.
  simpl. by rewrite <- !app_assoc.
Qed.

(** The assignments of lines 378-385 leave [id] and [criteria] alone. *)
Lemma apply_updates_filters_absent updates d d' :
  DashboardUpdate.filters updates = None ->
  apply_updates updates d = inr d' ->
  ScoreDefinition.criteria d' = ScoreDefinition.criteria d
  /\ ScoreDefinition.id d' = ScoreDefinition.id d.
Proof.
  unfold apply_updates. intros ->.
  destruct (DashboardUpdate.name updates),
    (DashboardUpdate.total_score updates),
    (DashboardUpdate.cde_score updates),
    (DashboardUpdate.category updates) as [c|];
    try destruct (ScoreCategory_getitem c);
    intros [= <-] || discriminate; done.
Qed.

Lemma apply_updates_filters_present updates filters d d' :
  DashboardUpdate.filters updates = Some filters ->
  apply_updates updates d = inr d' ->
  ScoreDefinition.criteria d'
  = from_filters (map filter_data filters)
      (default true (DashboardUpdate.group_by_field updates))
  /\ ScoreDefinition.id d' = ScoreDefinition.id d.
Proof.
  unfold apply_updates. intros ->.
  destruct (DashboardUpdate.name updates),
    (DashboardUpdate.total_score updates),
    (DashboardUpdate.cde_score updates),
    (DashboardUpdate.category updates) as [c|],
    (DashboardUpdate.group_by_field updates);
    try destruct (ScoreCategory_getitem c);
    intros [= <-] || discriminate; done.
Qed.

(** The only way the assignments fail is the category lookup. *)
Lemma apply_updates_succeeds updates d :
  (forall c, DashboardUpdate.category updates = Some c ->
             is_Some (ScoreCategory_getitem c)) ->
  exists d', apply_updates updates d = inr d'.
Proof.
  unfold apply_updates. intros Hcat.
  destruct (DashboardUpdate.category updates) as [c|]; [|by eexists].
  destruct (Hcat c eq_refl) as [sc ->]. by eexists.
Qed.

(** C3.  An update whose body carries [filters] (an empty list
    included) stores the definition with criteria built by
    [from_filters] from exactly those filters, each carried over field by
    field, whatever the criteria were before; the flag passed is the
    body's [group_by_field], and [true] when the body has none. *)
Theorem update_with_filters_rebuilds_criteria
    (dashboard_id : string) (updates : DashboardUpdate.t)
    (filters : list DashboardFilterCreate.t) (d : ScoreDefinition.t)
    (w : World) :
  UUID_parses dashboard_id = true ->
  definitions w !! dashboard_id = Some d ->
  DashboardUpdate.filters updates = Some filters ->
  (forall c, DashboardUpdate.category updates = Some c ->
             is_Some (ScoreCategory_getitem c)) ->
  exists d' response w',
    update_dashboard dashboard_id updates w = (inr response, w')
    /\ definitions w' !! ScoreDefinition.id d = Some d'
    /\ Save d' ∈ log w'
    /\ ScoreDefinition.criteria d'
       = from_filters (map filter_data filters)
           (default true (DashboardUpdate.group_by_field updates))
    /\ (DashboardUpdate.group_by_field updates = None ->
        ScoreDefinition.criteria d'
        = from_filters (map filter_data filters) true)
    /\ Forall2 (fun f fd =>
                  FilterData.field fd = DashboardFilterCreate.field f
                  /\ FilterData.value fd = DashboardFilterCreate.value f
                  /\ FilterData.others fd = DashboardFilterCreate.others f)
               filters (map filter_data filters).
Proof.
  intros Hid Hd Hfilters Hcat.
  destruct (apply_updates_succeeds updates d Hcat) as [d' Hd'].
  destruct (apply_updates_filters_present _ _ _ _ Hfilters Hd')
    as [Hcrit Hsame].
  eexists d', _, _.
  split.
  { rewrite (update_dashboard_run _ _ d) by done. rewrite Hd'. reflexivity. }
  simpl. split; [by rewrite <- Hsame, lookup_insert_eq|].
  split; [set_solver|].
  split; [exact Hcrit|].
  split; [intros Hnone; by rewrite Hcrit, Hnone|].
  apply Forall2_fmap_r, Forall_Forall2_diag, Forall_forall. by intros f _.
Qed.

(** C4.  An update whose body has no [filters] never changes criteria:
    when it succeeds the definition is stored with the criteria it had
    before the call, whichever of [name], [total_score], [cde_score],
    [category] and [group_by_field] the body sets; when it fails (the
    category lookup) nothing is stored.  It succeeds whenever the
    category, if given, is a member of [ScoreCategory]. *)
Theorem update_without_filters_keeps_criteria
    (dashboard_id : string) (updates : DashboardUpdate.t)
    (d : ScoreDefinition.t) (w : World) :
  UUID_parses dashboard_id = true ->
  definitions w !! dashboard_id = Some d ->
  DashboardUpdate.filters updates = None ->
  match update_dashboard dashboard_id updates w with
  | (inr _, w') =>
      exists d',
        definitions w' !! ScoreDefinition.id d = Some d'
        /\ Save d' ∈ log w'
        /\ ScoreDefinition.criteria d' = ScoreDefinition.criteria d
  | (inl e, w') =>
      definitions w' = definitions w
      /\ exists c,
           DashboardUpdate.category updates = Some c
           /\ ScoreCategory_getitem c = None
           /\ e = KeyError c
  end
  /\ ((forall c, DashboardUpdate.category updates = Some c ->
                 is_Some (ScoreCategory_getitem c)) ->
      exists response w',
        update_dashboard dashboard_id updates w = (inr response, w')).
Proof.
  intros Hid Hd Hfilters.
  rewrite (update_dashboard_run _ _ d) by done.
  split.
  - destruct (apply_updates updates d) as [e|d'] eqn:Hd'.
    + split; [done|].
      unfold apply_updates in Hd'.
      destruct (DashboardUpdate.category updates) as [c|]; [|done].
      exists c. destruct (ScoreCategory_getitem c); [done|].
      by injection Hd' as <-.
    + destruct (apply_updates_filters_absent _ _ _ Hfilters Hd')
        as [Hcrit Hsame].
      exists d'. simpl.
      split; [by rewrite <- Hsame, lookup_insert_eq|].
      split; [set_solver|done].
  - intros Hcat.
    destruct (apply_updates_succeeds updates d Hcat) as [d' ->].
    by eexists _, _.
Qed.

End UpdateProperties.

(** C3 on the sample world: an empty filter list and no flag replace the
    stored criteria by those built from no filter, grouped by field. *)
Lemma update_with_filters_rebuilds_criteria_witness :
  exists d' response w',
    update_dashboard Sample.dashboard_id
      {| DashboardUpdate.name := None;
         DashboardUpdate.total_score := None;
         DashboardUpdate.cde_score := None;
         DashboardUpdate.category := None;
         DashboardUpdate.filters := Some [];
         DashboardUpdate.group_by_field := None |}
      Sample.world = (inr response, w')
    /\ definitions w' !! Sample.dashboard_id = Some d'
    /\ ScoreDefinition.criteria d' = ([], true).
Proof.
  destruct (update_with_filters_rebuilds_criteria Sample.dashboard_id
              {| DashboardUpdate.name := None;
                 DashboardUpdate.total_score := None;
                 DashboardUpdate.cde_score := None;
                 DashboardUpdate.category := None;
                 DashboardUpdate.filters := Some [];
                 DashboardUpdate.group_by_field := None |}
              [] Sample.dashboard Sample.world)
    as (d' & response & w' & Hrun & Hstored & _ & Hcrit & _).
  - reflexivity.
  - vm_compute. reflexivity.
  - reflexivity.
  - intros c Hc. discriminate Hc.
  - exists d', response, w'. split; [exact Hrun|]. split; [exact Hstored|].
    exact Hcrit.
Defined.

(** C4 on the sample world: every field but [filters] is supplied, and
    the stored criteria are those the definition had. *)
Lemma update_without_filters_keeps_criteria_witness :
  exists response w' d',
    update_dashboard Sample.dashboard_id
      {| DashboardUpdate.name := Some "Renamed";
         DashboardUpdate.total_score := Some false;
         DashboardUpdate.cde_score := Some true;
         DashboardUpdate.category := Some "data_source";
         DashboardUpdate.filters := None;
         DashboardUpdate.group_by_field := Some true |}
      Sample.world = (inr response, w')
    /\ definitions w' !! Sample.dashboard_id = Some d'
    /\ ScoreDefinition.name d' = "Renamed"
    /\ ScoreDefinition.criteria d' = ScoreDefinition.criteria Sample.dashboard.
Proof.
  pose proof (update_without_filters_keeps_criteria Sample.dashboard_id
                {| DashboardUpdate.name := Some "Renamed";
                   DashboardUpdate.total_score := Some false;
                   DashboardUpdate.cde_score := Some true;
                   DashboardUpdate.category := Some "data_source";
                   DashboardUpdate.filters := None;
                   DashboardUpdate.group_by_field := Some true |}
                Sample.dashboard Sample.world
                eq_refl ltac:(vm_compute; reflexivity) eq_refl) as [Hkeep _].
  vm_compute in Hkeep. destruct Hkeep as (d' & Hstored & _ & Hcrit).
  eexists _, _, d'. split; [vm_compute; reflexivity|].
  split; [exact Hstored|]. split; [|exact Hcrit].
  vm_compute in Hstored. by injection Hstored as <-.
Defined.

(** ** Grouping of the filter values *)

Lemma group_row_skips (values : gmap string (list string))
    (row : CategoryValueRow.t) :
  PyStr.truthy (CategoryValueRow.category row) = false
  \/ PyStr.truthy (CategoryValueRow.value row) = false ->
  group_row values row = values.
Proof.
  unfold group_row. intros [-> | ->]; [done|]. by rewrite andb_false_r.
Qed.

Lemma group_row_appends (values : gmap string (list string)) (c v : string) :
  PyStr.truthy (Some c) = true -> PyStr.truthy (Some v) = true ->
  group_row values {| CategoryValueRow.category := Some c;
                      CategoryValueRow.value := Some v |}
  = <[c := default [] (values !! c) ++ [v]]> values.
Proof. unfold group_row. simpl. by intros -> ->. Qed.

(** One row, seen from the key [c]. *)
Lemma group_row_lookup (values : gmap string (list string))
    (row : CategoryValueRow.t) (c : string) :
  group_row values row !! c =
    match observed c [row] with
    | [] => values !! c
    | vs => Some (default [] (values !! c) ++ vs)
    end.
Proof.
  unfold group_row, observed. destruct row as [[c'|] [v|]]; simpl; try done.
  - destruct c' as [|a c'], v as [|b v]; simpl; try done.
    case_bool_decide as Heq; simpl.
    + subst c. by rewrite lookup_insert_eq.
    + by rewrite lookup_insert_ne.
  - by rewrite andb_false_r.
Qed.

Lemma observed_app (c : string) (rows1 rows2 : list CategoryValueRow.t) :
  observed c (rows1 ++ rows2) = observed c rows1 ++ observed c rows2.
Proof. unfold observed. apply omap_app. Qed.

Lemma fold_group_row_lookup (rows : list CategoryValueRow.t)
    (values : gmap string (list string)) (c : string) :
  fold_left group_row rows values !! c =
    match observed c rows with
    | [] => values !! c
    | vs => Some (default [] (values !! c) ++ vs)
    end.
Proof.
  revert values. induction rows as [|row rows IH]; intros values; [done|].
  simpl fold_left. rewrite IH, group_row_lookup.
  change (row :: rows) with ([row] ++ rows). rewrite observed_app.
  destruct (observed c [row]) as [|v vs];
    destruct (observed c rows) as [|v' vs']; simpl; try done.
  - by rewrite app_nil_r.
  - by rewrite <- app_assoc.
Qed.

Lemma observed_nonempty (c : string) (rows : list CategoryValueRow.t) :
  Forall (fun v => v <> EmptyString) (observed c rows).
Proof.
  unfold observed. apply Forall_forall. intros v Hv.
  apply list_elem_of_omap in Hv as (row & _ & Hrow).
  destruct (CategoryValueRow.category row) as [c'|],
    (CategoryValueRow.value row) as [v'|]; try done.
  destruct c', v'; simpl in Hrow; try done.
  case_bool_decide; [|done]. by injection Hrow as <-.
Qed.

Lemma observed_empty_category (rows : list CategoryValueRow.t) :
  observed EmptyString rows = [].
Proof.
  induction rows as [|row rows IH]; [done|].
  change (row :: rows) with ([row] ++ rows).
  rewrite observed_app, IH, app_nil_r.
  destruct row as [[c'|] [v'|]]; try done.
  destruct c', v'; try done.
Qed.

Section FilterValueProperties.
Context `{Engine}.

(** C10.  [get_filter_field_values] issues its one query and groups the
    rows: a row whose category or value is null or empty changes
    nothing; under each key the mapping holds the non-empty values of
    that category's rows, in row order; a key is present exactly when
    there is at least one such value, and the values it holds are never
    empty. *)
Theorem filter_values_grouped_in_row_order (project_code : string)
    (w : World) :
  let rows := filter_value_rows project_code in
  exists values,
    get_filter_field_values project_code w
    = (inr values, logged w [FetchFilterValues project_code])
    /\ values = group_rows rows
    /\ (forall acc row,
          PyStr.truthy (CategoryValueRow.category row) = false
          \/ PyStr.truthy (CategoryValueRow.value row) = false ->
          group_row acc row = acc)
    /\ (forall c,
          values !! c =
            match observed c rows with
            | [] => None
            | vs => Some vs
            end)
    /\ (forall c, is_Some (values !! c) <-> observed c rows <> [])
    /\ (forall c vs, values !! c = Some vs ->
          vs <> [] /\ Forall (fun v => v <> EmptyString) vs
          /\ c <> EmptyString).
Proof.
  intros rows. exists (group_rows rows).
  assert (forall c,
            group_rows rows !! c =
              match observed c rows with
              | [] => None
              | vs => Some vs
              end) as Hlookup.
  { intros c. unfold group_rows. rewrite fold_group_row_lookup.
    rewrite lookup_empty. by destruct (observed c rows). }
  split; [done|]. split; [done|].
  split; [apply group_row_skips|].
  split; [exact Hlookup|].
  split.
  - intros c. rewrite Hlookup.
    destruct (observed c rows); split; intros Hs; try done.
  - intros c vs. rewrite Hlookup. intros Hvs.
    destruct (observed c rows) as [|v vs'] eqn:Hobs; [done|].
    injection Hvs as <-.
    split; [done|]. split; [rewrite <- Hobs; apply observed_nonempty|].
    intros ->. by rewrite observed_empty_category in Hobs.
Qed.

End FilterValueProperties.

(** ** The filter-options handler *)
Section FilterOptionsProperties.
Context `{Engine}.

(** The whole handler: the project check, then each part computed only
    when its flag is set. *)
Lemma get_dashboard_filter_options_run (project_code : string)
    (include_filter_values include_columns include_category_options
     include_score_grouping_options include_score_type_options : bool)
    (w : World) :
  get_dashboard_filter_options project_code include_filter_values
    include_columns include_category_options
    include_score_grouping_options include_score_type_options w =
  if bool_decide (project_code ∈ projects w) then
    (inr {| FilterOptions.filter_fields_metadata :=
              if include_filter_values then filter_fields_metadata_table
              else [];
            FilterOptions.filter_values :=
              if include_filter_values
              then group_rows (filter_value_rows project_code) else ∅;
            FilterOptions.columns :=
              if include_columns then column_rows project_code else [];
            FilterOptions.category_options :=
              if include_category_options then category_options_table
              else [];
            FilterOptions.score_grouping_options :=
              if include_score_grouping_options
              then score_grouping_options_table else [];
            FilterOptions.score_type_options :=
              if include_score_type_options then score_type_options_table
              else [] |},
     logged w (ProjectQuery project_code ::
               (if include_filter_values
                then [FetchFilterValues project_code] else []) ++
               (if include_columns
                then [FetchColumns project_code] else [])))
  else
    (inl (HTTPException 404
            ("Project '" +:+ project_code +:+ "' not found")),
     logged w [ProjectQuery project_code]).
Proof.
  unfold get_dashboard_filter_options. unfold bind at 1.
  rewrite validate_project_code_run.
  case_bool_decide; [|done].
  unfold get_filter_field_values, get_column_hierarchy, bind, call, ret.
  destruct include_filter_values, include_columns; simpl;
    by rewrite ?logged_logged.
Qed.

(** C6.  For a project that does not exist the filter-options handler
    raises the 404 of the project check; the only call made is the
    project query, so no filter-value or column query has run, and no
    [FilterOptions] value is returned. *)
Theorem filter_options_unknown_project (project_code : string)
    (include_filter_values include_columns include_category_options
     include_score_grouping_options include_score_type_options : bool)
    (w : World) :
  project_code ∉ projects w ->
  get_dashboard_filter_options project_code include_filter_values
    include_columns include_category_options
    include_score_grouping_options include_score_type_options w
  = (inl (HTTPException HTTP_404_NOT_FOUND
            ("Project '" +:+ project_code +:+ "' not found")),
     logged w [ProjectQuery project_code])
  /\ Forall (fun e => is_dynamic_query e = false)
            [ProjectQuery project_code]
  /\ (forall options w',
        get_dashboard_filter_options project_code include_filter_values
          include_columns include_category_options
          include_score_grouping_options include_score_type_options w
        <> (inr options, w')).
Proof.
  intros Hmissing. rewrite get_dashboard_filter_options_run.
  rewrite bool_decide_eq_false_2 by done.
  split; [done|]. split; [by repeat constructor|]. by intros options w'.
Qed.

(** C7.  On an existing project the handler answers OK and each part
    of the answer depends on its own flag alone: field metadata and
    filter values on [include_filter_values] (the filter-value query is
    issued only then), columns on [include_columns] (the column query is
    issued only then), and the three option tables on their flags.  With
    the five flags false the six collections are empty and the project
    query is the only call. *)
Theorem filter_options_gated_by_flags (project_code : string)
    (include_filter_values include_columns include_category_options
     include_score_grouping_options include_score_type_options : bool)
    (w : World) :
  project_code ∈ projects w ->
  (exists options w',
     get_dashboard_filter_options project_code include_filter_values
       include_columns include_category_options
       include_score_grouping_options include_score_type_options w
     = (inr options, w')
     /\ FilterOptions.filter_fields_metadata options
        = (if include_filter_values then filter_fields_metadata_table
           else [])
     /\ FilterOptions.filter_values options
        = (if include_filter_values
           then group_rows (filter_value_rows project_code) else ∅)
     /\ FilterOptions.columns options
        = (if include_columns then column_rows project_code else [])
     /\ FilterOptions.category_options options
        = (if include_category_options then category_options_table
           else [])
     /\ FilterOptions.score_grouping_options options
        = (if include_score_grouping_options
           then score_grouping_options_table else [])
     /\ FilterOptions.score_type_options options
        = (if include_score_type_options then score_type_options_table
           else [])
     /\ w' = logged w
               (ProjectQuery project_code ::
                (if include_filter_values
                 then [FetchFilterValues project_code] else []) ++
                (if include_columns
                 then [FetchColumns project_code] else [])))
  /\ get_dashboard_filter_options project_code false false false false
       false w
     = (inr {| FilterOptions.filter_fields_metadata := [];
               FilterOptions.filter_values := ∅;
               FilterOptions.columns := [];
               FilterOptions.category_options := [];
               FilterOptions.score_grouping_options := [];
               FilterOptions.score_type_options := [] |},
        logged w [ProjectQuery project_code])
  /\ Forall (fun e => is_dynamic_query e = false)
            [ProjectQuery project_code].
Proof.
  intros Hexists. rewrite !get_dashboard_filter_options_run.
  rewrite bool_decide_eq_true_2 by done.
  split; [by eexists _, _|].
  split; [done|]. by repeat constructor.
Qed.

(** C8.  The grouping options list the 13 canonical categories once
    each, in vocabulary order; the category options list, once each, the
    vocabulary without [column_name], [table_name] and
    [semantic_data_type]; and these are the lists the handler returns
    when the two flags are set. *)
Theorem option_tables_mirror_vocabulary :
  map Option_.key score_grouping_options_table = GroupBy.valid_categories
  /\ map Option_.key score_grouping_options_table
     = map GroupBy.value GroupBy.members
  /\ length score_grouping_options_table = 13%nat
  /\ NoDup (map Option_.key score_grouping_options_table)
  /\ map Option_.key category_options_table
     ≡ₚ filter (fun v => v ∉ ["column_name"; "table_name";
                              "semantic_data_type"])
               GroupBy.valid_categories
  /\ NoDup (map Option_.key category_options_table)
  /\ (forall v,
        v ∈ map Option_.key category_options_table <->
        v ∈ GroupBy.valid_categories
        /\ v ∉ ["column_name"; "table_name"; "semantic_data_type"])
  /\ (forall project_code include_filter_values include_columns
             include_score_type_options w options w',
        get_dashboard_filter_options project_code include_filter_values
          include_columns true true include_score_type_options w
        = (inr options, w') ->
        FilterOptions.score_grouping_options options
        = score_grouping_options_table
        /\ FilterOptions.category_options options
           = category_options_table).
Proof.
  assert (map Option_.key category_options_table
          ≡ₚ filter (fun v => v ∉ ["column_name"; "table_name";
                                   "semantic_data_type"])
                    GroupBy.valid_categories) as Hperm
    by (apply (bool_decide_eq_true_1 _); vm_compute; reflexivity).
  split; [reflexivity|]. split; [reflexivity|]. split; [reflexivity|].
  split; [apply (bool_decide_eq_true_1 _); vm_compute; reflexivity|].
  split; [exact Hperm|].
  split; [apply (bool_decide_eq_true_1 _); vm_compute; reflexivity|].
  split.
  - intros v. rewrite Hperm, list_elem_of_filter. tauto.
  - intros project_code include_filter_values include_columns
      include_score_type_options w options w'.
    rewrite get_dashboard_filter_options_run.
    case_bool_decide; [|done]. by intros [= <- _].
Qed.

End FilterOptionsProperties.

(** C6 on the sample world: a project that is not there. *)
Lemma filter_options_unknown_project_witness :
  ("MISSING" ∉ projects Sample.world)
  /\ get_dashboard_filter_options "MISSING" true true true true true
       Sample.world
     = (inl (HTTPException 404 "Project 'MISSING' not found"),
        logged Sample.world [ProjectQuery "MISSING"]).
Proof.
  assert ("MISSING" ∉ projects Sample.world) as Hmissing
    by (apply (bool_decide_eq_false_1 _); vm_compute; reflexivity).
  split; [exact Hmissing|].
  exact (proj1 (filter_options_unknown_project "MISSING" true true true true
                  true Sample.world Hmissing)).
Defined.

(** C7 on the sample world: the five flags false. *)
Lemma filter_options_gated_by_flags_witness :
  ("DEFAULT" ∈ projects Sample.world)
  /\ get_dashboard_filter_options "DEFAULT" false false false false false
       Sample.world
     = (inr {| FilterOptions.filter_fields_metadata := [];
               FilterOptions.filter_values := ∅;
               FilterOptions.columns := [];
               FilterOptions.category_options := [];
               FilterOptions.score_grouping_options := [];
               FilterOptions.score_type_options := [] |},
        logged Sample.world [ProjectQuery "DEFAULT"]).
Proof.
  assert ("DEFAULT" ∈ projects Sample.world) as Hexists
    by (apply (bool_decide_eq_true_1 _); vm_compute; reflexivity).
  split; [exact Hexists|].
  exact (proj1 (proj2 (filter_options_gated_by_flags "DEFAULT" false false
                         false false false Sample.world Hexists))).
Defined.

(** ** The handlers run on the sample world *)

Example alias_key_table_group :
  GroupBy.alias_key "table_group" = "table group".
Proof. reflexivity. Qed.

Example normalize_mixed_case :
  GroupBy.normalize " Table_Group" = "table_groups_name"
  /\ GroupBy.normalize "TableGroup" = "table_groups_name"
  /\ GroupBy.normalize "table-group" = "table-group".
Proof. by vm_compute. Qed.

Example of_value_typo : GroupBy.of_value "semantic_data_typo" = None.
Proof. reflexivity. Qed.

Example breakdown_by_data_source :
  breakdown_route Sample.dashboard_id "score" "data_source" Sample.world
  = (inr ["data_source"],
     logged Sample.world
       [ScoreDefinitionGet Sample.dashboard_id;
        GetScoreCardBreakdown Sample.dashboard_id ScoreType.score
                              "data_source"]).
Proof. by vm_compute. Qed.

Example sample_filter_values :
  group_rows (filter_value_rows "DEFAULT")
  = <["data_source" := ["postgres"; "snowflake"]]>
      (<["data_location" := ["eu"]]> ∅).
Proof. by vm_compute. Qed.

Example sample_list_summary :
  fst (list_dashboards (Some "DEFAULT") None "name" false false Sample.world)
  = inr [summary Sample.dashboard].
Proof. by vm_compute. Qed.


(** * Further properties of the router *)

(** ** Alias resolution *)

(** X1.  Normalising a group-by token twice is the same as normalising it
    once, for every string. *)
Theorem normalize_idempotent (s : string) :
  GroupBy.normalize (GroupBy.normalize s) = GroupBy.normalize s.
Proof.
  rewrite (normalize_spec s).
  case_bool_decide as Halias; [by vm_compute|].
  rewrite normalize_spec. by rewrite bool_decide_eq_false_2.
Qed.

(** X2.  The [table_group] entry of the alias table is never hit: the
    key looked up has had its underscores replaced, so no input produces
    it, and the table without that entry resolves every token alike. *)
Theorem table_group_key_is_dead (s : string) :
  GroupBy.alias_key s <> "table_group"
  /\ GroupBy.normalize s
     = default s (delete "table_group" GroupBy.group_by_mapping
                  !! GroupBy.alias_key s).
Proof.
  pose proof (alias_key_not_table_group s) as Hne.
  split; [exact Hne|].
  unfold GroupBy.normalize. by rewrite lookup_delete_ne.
Qed.

(** X3.  Coercing a string to [GroupByCategory] and taking [.value] are
    inverse to each other: a member is found from its value, a string
    coerces only to the member that has it as value, distinct members have
    distinct values, and the strings that do not coerce are those outside
    the 13-entry vocabulary. *)
Theorem group_by_coercion_round_trip :
  (forall g, GroupBy.of_value (GroupBy.value g) = Some g)
  /\ (forall s g, GroupBy.of_value s = Some g <-> GroupBy.value g = s)
  /\ (forall g1 g2, GroupBy.value g1 = GroupBy.value g2 -> g1 = g2)
  /\ (forall s, GroupBy.of_value s = None <-> s ∉ GroupBy.valid_categories).
Proof.
  split; [apply of_value_value|].
  split.
  { intros s g. split; [apply of_value_Some|].
    intros <-. apply of_value_value. }
  split.
  { intros g1 g2 Heq.
    pose proof (of_value_value g1) as H1. rewrite Heq, of_value_value in H1.
    by injection H1. }
  intros s. rewrite <- of_value_is_Some. split.
  - intros -> [g Hg]. discriminate.
  - intros Hnot. destruct (GroupBy.of_value s) eqn:Hs; [|done].
    destruct Hnot. by eexists.
Qed.

(** X4.  Normalisation yields a canonical category exactly for the
    canonical tokens and for the tokens whose alias key is [table group]
    or [tablegroup]; no other string is turned into a valid category. *)
Theorem normalize_valid_iff (s : string) :
  GroupBy.normalize s ∈ GroupBy.valid_categories <->
  s ∈ GroupBy.valid_categories
  \/ GroupBy.alias_key s ∈ ["table group"; "tablegroup"].
Proof.
  rewrite normalize_spec. case_bool_decide as Halias.
  - split; [by right|]. intros _.
    apply (value_in_valid_categories table_groups_name).
  - split; [by left|]. by intros [Hs | Hs].
Qed.

(** *** Alias resolution ignores case and the underscore/space choice *)

Lemma lower_char_idempotent (c : ascii) :
  PyStr.lower_char (PyStr.lower_char c) = PyStr.lower_char c.
Proof. destruct c as [[] [] [] [] [] [] [] []]; reflexivity. Qed.

Lemma lower_char_replace (c : ascii) :
  PyStr.lower_char (if Ascii.eqb c "_" then " "%char else c)
  = (if Ascii.eqb (PyStr.lower_char c) "_" then " "%char
     else PyStr.lower_char c).
Proof. destruct c as [[] [] [] [] [] [] [] []]; reflexivity. Qed.

Lemma lower_char_isspace (c : ascii) :
  PyStr.isspace (PyStr.lower_char c) = PyStr.isspace c.
Proof. destruct c as [[] [] [] [] [] [] [] []]; reflexivity. Qed.

Lemma lower_idempotent (s : string) :
  PyStr.lower (PyStr.lower s) = PyStr.lower s.
Proof.
  induction s as [|c s IH]; simpl; [done|].
  by rewrite lower_char_idempotent, IH.
Qed.

Lemma lower_replace (s : string) :
  PyStr.lower (PyStr.replace "_" " " s)
  = PyStr.replace "_" " " (PyStr.lower s).
Proof.
  induction s as [|c s IH]; simpl; [done|].
  by rewrite lower_char_replace, IH.
Qed.

Lemma replace_idempotent (s : string) :
  PyStr.replace "_" " " (PyStr.replace "_" " " s) = PyStr.replace "_" " " s.
Proof.
  induction s as [|c s IH]; simpl; [done|].
  rewrite IH. by destruct (Ascii.eqb c "_") eqn:Hc; [|rewrite Hc].
Qed.

(** X5.  Whether a token resolves as an alias does not depend on its
    letter case nor on whether its words are joined by underscores or by
    spaces: lower-casing the token, or replacing its underscores by spaces,
    leaves the key that is looked up unchanged. *)
Theorem alias_key_ignores_case_and_underscores (s : string) :
  GroupBy.alias_key (PyStr.lower s) = GroupBy.alias_key s
  /\ GroupBy.alias_key (PyStr.replace "_" " " s) = GroupBy.alias_key s
  /\ (GroupBy.alias_key s ∈ ["table group"; "tablegroup"] ->
      GroupBy.normalize (PyStr.lower s) = "table_groups_name"
      /\ GroupBy.normalize (PyStr.replace "_" " " s) = "table_groups_name").
Proof.
  assert (GroupBy.alias_key (PyStr.lower s) = GroupBy.alias_key s) as Hlower
    by (unfold GroupBy.alias_key; by rewrite lower_idempotent).
  assert (GroupBy.alias_key (PyStr.replace "_" " " s) = GroupBy.alias_key s)
    as Hreplace.
  { unfold GroupBy.alias_key. by rewrite lower_replace, replace_idempotent. }
  split; [exact Hlower|]. split; [exact Hreplace|].
  intros Halias. rewrite !normalize_spec, Hlower, Hreplace.
  by rewrite bool_decide_eq_true_2.
Qed.

(** ** Handlers that only read *)
Section ReadOnly.
Context `{EngineExt}.

Lemma appends_only_ret {A} (a : A) : appends_only (ret a).
Proof. intros w. exists []. simpl. by rewrite logged_nil. Qed.

Lemma appends_only_raise {A} (e : Exn) : appends_only (raise (A:=A) e).
Proof. intros w. exists []. simpl. by rewrite logged_nil. Qed.

Lemma appends_only_get_world : appends_only get_world.
Proof. intros w. exists []. simpl. by rewrite logged_nil. Qed.

Lemma appends_only_call (e : Event) : appends_only (call e).
Proof. intros w. by exists [e]. Qed.

Lemma appends_only_lift {A} (r : Exn + A) : appends_only (lift r).
Proof. destruct r; [apply appends_only_raise | apply appends_only_ret]. Qed.

Lemma appends_only_bind {A B} (m : M A) (k : A -> M B) :
  appends_only m -> (forall a, appends_only (k a)) ->
  appends_only (let* a := m in k a).
Proof.
  intros Hm Hk w. unfold bind. destruct (Hm w) as [es1 Hes1].
  destruct (m w) as [[e|a] w1]; simpl in *; subst w1.
  - by exists es1.
  - destruct (Hk a (logged w es1)) as [es2 Hes2].
    exists (es1 ++ es2). by rewrite Hes2, logged_logged.
Qed.

Lemma appends_only_for_each {A B} (f : A -> M B) (l : list A) :
  (forall a, appends_only (f a)) -> appends_only (for_each f l).
Proof.
  intros Hf. induction l as [|a l IH]; simpl.
  - apply appends_only_ret.
  - apply appends_only_bind; [apply Hf|]. intros b.
    apply appends_only_bind; [apply IH|]. intros bs. apply appends_only_ret.
Qed.

Lemma appends_only_if {A} (b : bool) (m1 m2 : M A) :
  appends_only m1 -> appends_only m2 ->
  appends_only (if b then m1 else m2).
Proof. by destruct b. Qed.

Ltac appends_step :=
  first
    [ apply appends_only_ret | apply appends_only_raise
    | apply appends_only_get_world | apply appends_only_call
    | apply appends_only_lift | apply appends_only_if
    | apply appends_only_bind; [|intros ?]
    | match goal with
      | |- appends_only (match ?x with _ => _ end) => destruct x
      end ].

Lemma appends_only_validate_project_code project_code :
  appends_only (validate_project_code project_code).
Proof. unfold validate_project_code. repeat appends_step. Qed.

Lemma appends_only_validate_dashboard_id dashboard_id :
  appends_only (validate_dashboard_id dashboard_id).
Proof. unfold validate_dashboard_id. repeat appends_step. Qed.

Lemma appends_only_full_details include_history d :
  appends_only (full_details include_history d).
Proof.
  unfold full_details, call_as_score_card, call_as_cached_score_card.
  repeat appends_step.
Qed.

Ltac appends :=
  repeat first
    [ apply appends_only_validate_project_code
    | apply appends_only_validate_dashboard_id
    | apply appends_only_for_each; intros ?
    | apply appends_only_full_details
    | appends_step ].

(** X6.  The list, breakdown, issues, read and filter-options handlers
    never change the stored definitions or the set of projects, whatever
    their arguments and whether they succeed or fail: the world they leave
    is the one they found with calls appended to its log. *)
Theorem reading_handlers_only_append :
  (forall project_code name_filter sorted_by include_scores include_history,
     appends_only (list_dashboards project_code name_filter sorted_by
                                   include_scores include_history))
  /\ (forall dashboard_id score_type group_by,
        appends_only (get_dashboard_breakdown dashboard_id score_type
                                              group_by))
  /\ (forall dashboard_id score_type group_by value,
        appends_only (get_dashboard_issues dashboard_id score_type group_by
                                           value))
  /\ (forall dashboard_id include_breakdown include_history,
        appends_only (get_dashboard dashboard_id include_breakdown
                                    include_history))
  /\ (forall project_code f1 f2 f3 f4 f5,
        appends_only (get_dashboard_filter_options project_code
                                                   f1 f2 f3 f4 f5))
  /\ (forall A (m : M A) w,
        appends_only m ->
        projects (snd (m w)) = projects w
        /\ definitions (snd (m w)) = definitions w
        /\ exists es, log (snd (m w)) = log w ++ es).
Proof.
  split; [intros; unfold list_dashboards; appends|].
  split; [intros; unfold get_dashboard_breakdown; appends|].
  split; [intros; unfold get_dashboard_issues; appends|].
  split.
  { intros. unfold get_dashboard, call_as_cached_score_card. appends. }
  split.
  { intros. unfold get_dashboard_filter_options, get_filter_field_values,
      get_column_hierarchy. appends. }
  intros A m w Hm. destruct (Hm w) as [es ->]. simpl. eauto.
Qed.

End ReadOnly.

(** ** More on the list handler *)
Section ListExtras.
Context `{Engine}.

(** X7.  Asking the list handler for history alone costs as much as
    asking for scores and history: [include_scores] makes no difference
    once [include_history] is set, and a fresh score card is computed for
    every listed definition. *)
Theorem list_history_alone_computes_scores
    (project_code name_filter : option string) (sorted_by : string)
    (include_scores : bool) (w : World) :
  list_dashboards project_code name_filter sorted_by include_scores true w
  = list_dashboards project_code name_filter sorted_by true true w
  /\ (forall items w' d,
        list_dashboards project_code name_filter sorted_by include_scores
                        true w = (inr items, w') ->
        d ∈ listed w project_code name_filter sorted_by true ->
        AsScoreCard (ScoreDefinition.id d) ∈ log w').
Proof.
  split.
  { rewrite !list_dashboards_run. simpl. by rewrite orb_true_r. }
  intros items w' d. rewrite list_dashboards_run. simpl.
  rewrite orb_true_r. intros Hrun Hd.
  assert (AsScoreCard (ScoreDefinition.id d)
          ∈ concat (map (details_calls true)
                      (listed w project_code name_filter sorted_by true)))
    as Hcall.
  { apply (details_calls_app true _ d Hd). unfold details_calls.
    apply elem_of_cons. by left. }
  destruct (checked_code project_code) as [code|].
  - case_bool_decide; [|done]. injection Hrun as _ <-. simpl.
    apply elem_of_app. right. apply elem_of_cons. right.
    apply elem_of_cons. by right.
  - injection Hrun as _ <-. simpl.
    apply elem_of_app. right. apply elem_of_cons. by right.
Qed.

(** X8.  A [project_code] that is absent or the empty string is not
    validated: the list handler makes no project query, cannot fail, and
    answers with one item per definition the listing returns. *)
Theorem list_without_project_code_cannot_fail
    (project_code name_filter : option string) (sorted_by : string)
    (include_scores include_history : bool) (w : World) :
  PyStr.truthy project_code = false ->
  exists items es,
    list_dashboards project_code name_filter sorted_by include_scores
                    include_history w = (inr items, logged w es)
    /\ length items
       = length (listed w project_code name_filter sorted_by include_history)
    /\ Forall (fun e => forall code, e <> ProjectQuery code) es.
Proof.
  intros Hfalsy. rewrite list_dashboards_run. simpl.
  unfold checked_code. rewrite Hfalsy.
  destruct (include_scores || include_history).
  - eexists _, _. split; [reflexivity|]. split; [by rewrite length_map|].
    constructor; [done|]. apply Forall_forall. intros e He code ->.
    apply list_elem_of_In, in_concat in He as (calls & Hcalls & He).
    apply in_map_iff in Hcalls as (d & <- & _).
    unfold details_calls in He.
    destruct (include_history && has_history d); simpl in He;
      intuition discriminate.
  - eexists _, _. split; [reflexivity|]. split; [by rewrite length_map|].
    by repeat constructor.
Qed.

(** X9.  For a project that does not exist the list handler stops at the
    project check, whichever details were requested: the answer is the 404
    and the project query is the only call, so the definitions are not
    fetched and no score card is computed. *)
Theorem list_unknown_project_stops_early
    (code : string) (name_filter : option string) (sorted_by : string)
    (include_scores include_history : bool) (w : World) :
  code <> EmptyString ->
  code ∉ projects w ->
  list_dashboards (Some code) name_filter sorted_by include_scores
                  include_history w
  = (inl (HTTPException 404 ("Project '" +:+ code +:+ "' not found")),
     logged w [ProjectQuery code]).
Proof.
  intros Hcode Hmissing. rewrite list_dashboards_run. simpl.
  unfold checked_code. destruct code; [done|]. simpl.
  by rewrite bool_decide_eq_false_2.
Qed.

(** X10.  A definition without history, or any definition when history
    is not requested, is answered from the fresh card alone: the card goes
    to the formatter as computed and the fresh computation is the only
    engine call made for it. *)
Theorem full_details_without_history
    (include_history : bool) (d : ScoreDefinition.t) (w : World) :
  include_history = false \/ ScoreDefinition.history d = [] ->
  full_details include_history d w
  = (inr (DashboardResponse_kwargs (format_score_card (as_score_card d))),
     logged w [AsScoreCard (ScoreDefinition.id d)]).
Proof.
  intros Hno. rewrite full_details_run.
  unfold details_card, details_calls, has_history.
  destruct Hno as [-> | ->]; [done|].
  rewrite bool_decide_eq_true_2 by done. simpl. by rewrite andb_false_r.
Qed.

End ListExtras.

Lemma list_without_project_code_cannot_fail_witness :
  exists items es,
    list_dashboards (Some EmptyString) None "name" true true Sample.world
    = (inr items, logged Sample.world es)
    /\ Forall (fun e => forall code, e <> ProjectQuery code) es.
Proof.
  destruct (list_without_project_code_cannot_fail (Some EmptyString) None
              "name" true true Sample.world eq_refl)
    as (items & es & Hrun & _ & Hcalls).
  exists items, es. split; [exact Hrun | exact Hcalls].
Defined.

Lemma list_unknown_project_stops_early_witness :
  list_dashboards (Some "MISSING") None "name" true true Sample.world
  = (inl (HTTPException 404 "Project 'MISSING' not found"),
     logged Sample.world [ProjectQuery "MISSING"]).
Proof.
  apply (list_unknown_project_stops_early "MISSING" None "name" true true
           Sample.world).
  - discriminate.
  - apply (bool_decide_eq_false_1 _). vm_compute. reflexivity.
Defined.

Lemma full_details_without_history_witness :
  full_details false Sample.dashboard Sample.world
  = (inr (DashboardResponse_kwargs
            (format_score_card (as_score_card Sample.dashboard))),
     logged Sample.world [AsScoreCard Sample.dashboard_id]).
Proof.
  apply (full_details_without_history false Sample.dashboard Sample.world).
  by left.
Defined.

(** ** The dashboard id check, in every handler that takes an id *)
Section IdValidation.
Context `{EngineExt}.

Lemma validate_dashboard_id_malformed dashboard_id w :
  UUID_parses dashboard_id = false ->
  validate_dashboard_id dashboard_id w
  = (inl (HTTPException 400
            ("Invalid dashboard ID format: " +:+ dashboard_id)), w).
Proof. intros Hid. unfold validate_dashboard_id. by rewrite Hid. Qed.

Lemma validate_dashboard_id_unknown dashboard_id w :
  UUID_parses dashboard_id = true ->
  definitions w !! dashboard_id = None ->
  validate_dashboard_id dashboard_id w
  = (inl (HTTPException 404
            ("Dashboard '" +:+ dashboard_id +:+ "' not found")),
     logged w [ScoreDefinitionGet dashboard_id]).
Proof.
  intros Hid Hnone. unfold validate_dashboard_id, bind, call, get_world.
  rewrite Hid. simpl. by rewrite Hnone.
Qed.

Lemma bind_fails {A B} (m : M A) (k : A -> M B) w e w' :
  m w = (inl e, w') -> (let* a := m in k a) w = (inl e, w').
Proof. intros Hm. unfold bind. by rewrite Hm. Qed.

(** X11.  An id that is not a well-formed UUID is refused by the
    breakdown, issues, read, update, delete and recalculate handlers alike,
    with the same 400, before anything is looked up: the world is left
    exactly as it was, so nothing is saved, deleted or refreshed. *)
Theorem malformed_id_is_refused_untouched
    (dashboard_id : string) (w : World) :
  UUID_parses dashboard_id = false ->
  let refused {A} : (Exn + A) * World :=
    (inl (HTTPException 400
            ("Invalid dashboard ID format: " +:+ dashboard_id)), w) in
  (forall score_type group_by,
     get_dashboard_breakdown dashboard_id score_type group_by w = refused)
  /\ (forall score_type group_by value,
        get_dashboard_issues dashboard_id score_type group_by value w
        = refused)
  /\ (forall include_breakdown include_history,
        get_dashboard dashboard_id include_breakdown include_history w
        = refused)
  /\ (forall updates, update_dashboard dashboard_id updates w = refused)
  /\ delete_dashboard dashboard_id w = refused
  /\ recalculate_dashboard dashboard_id w = refused.
Proof.
  intros Hid refused.
  pose proof (validate_dashboard_id_malformed dashboard_id w Hid) as Hv.
  repeat split; intros; by apply bind_fails.
Qed.

(** X12.  A well-formed id under which no definition is stored is
    answered with the same 404 by those six handlers; the lookup is the
    only call made, and the stored definitions are left as they were. *)
Theorem unknown_id_is_not_found
    (dashboard_id : string) (w : World) :
  UUID_parses dashboard_id = true ->
  definitions w !! dashboard_id = None ->
  let not_found {A} : (Exn + A) * World :=
    (inl (HTTPException 404
            ("Dashboard '" +:+ dashboard_id +:+ "' not found")),
     logged w [ScoreDefinitionGet dashboard_id]) in
  (forall score_type group_by,
     get_dashboard_breakdown dashboard_id score_type group_by w = not_found)
  /\ (forall score_type group_by value,
        get_dashboard_issues dashboard_id score_type group_by value w
        = not_found)
  /\ (forall include_breakdown include_history,
        get_dashboard dashboard_id include_breakdown include_history w
        = not_found)
  /\ (forall updates, update_dashboard dashboard_id updates w = not_found)
  /\ delete_dashboard dashboard_id w = not_found
  /\ recalculate_dashboard dashboard_id w = not_found.
Proof.
  intros Hid Hnone not_found.
  pose proof (validate_dashboard_id_unknown dashboard_id w Hid Hnone) as Hv.
  repeat split; intros; by apply bind_fails.
Qed.

End IdValidation.

Lemma malformed_id_is_refused_untouched_witness :
  update_dashboard "not-a-uuid"
    {| DashboardUpdate.name := Some "Renamed";
       DashboardUpdate.total_score := None;
       DashboardUpdate.cde_score := None;
       DashboardUpdate.category := None;
       DashboardUpdate.filters := Some [];
       DashboardUpdate.group_by_field := None |} Sample.world
  = (inl (HTTPException 400 "Invalid dashboard ID format: not-a-uuid"),
     Sample.world)
  /\ delete_dashboard "not-a-uuid" Sample.world
     = (inl (HTTPException 400 "Invalid dashboard ID format: not-a-uuid"),
        Sample.world).
Proof.
  assert (UUID_parses "not-a-uuid" = false) as Hid by reflexivity.
  destruct (malformed_id_is_refused_untouched "not-a-uuid" Sample.world Hid)
    as (_ & _ & _ & Hupdate & Hdelete & _).
  split; [apply Hupdate | exact Hdelete].
Defined.

Lemma unknown_id_is_not_found_witness :
  recalculate_dashboard Sample.dashboard_id
    {| projects := projects Sample.world;
       definitions := ∅;
       log := [] |}
  = (inl (HTTPException 404
            "Dashboard '123e4567-e89b-12d3-a456-426614174000' not found"),
     {| projects := projects Sample.world;
        definitions := ∅;
        log := [ScoreDefinitionGet Sample.dashboard_id] |}).
Proof.
  assert (UUID_parses Sample.dashboard_id = true) as Hid by reflexivity.
  destruct (unknown_id_is_not_found Sample.dashboard_id
              {| projects := projects Sample.world;
                 definitions := ∅;
                 log := [] |} Hid (lookup_empty _))
    as (_ & _ & _ & _ & _ & Hrecalculate).
  exact Hrecalculate.
Defined.

(** ** More on the update handler *)
Section UpdateExtras.
Context `{Engine}.


Lemma apply_updates_frame updates d d' :
  apply_updates updates d = inr d' ->
  ScoreDefinition.id d' = ScoreDefinition.id d
  /\ ScoreDefinition.project_code d' = ScoreDefinition.project_code d
  /\ ScoreDefinition.history d' = ScoreDefinition.history d
  /\ ScoreDefinition.name d'
     = default (ScoreDefinition.name d) (DashboardUpdate.name updates)
  /\ ScoreDefinition.total_score d'
     = default (ScoreDefinition.total_score d)
               (DashboardUpdate.total_score updates)
  /\ ScoreDefinition.cde_score d'
     = default (ScoreDefinition.cde_score d)
               (DashboardUpdate.cde_score updates)
  /\ ScoreDefinition.category d'
     = match DashboardUpdate.category updates with
       | Some c => ScoreCategory_getitem c
       | None => ScoreDefinition.category d
       end.
Proof.
  unfold apply_updates.
  destruct (DashboardUpdate.name updates),
    (DashboardUpdate.total_score updates),
    (DashboardUpdate.cde_score updates),
    (DashboardUpdate.category updates) as [c|],
    (DashboardUpdate.filters updates);
    try destruct (ScoreCategory_getitem c);
    intros [= <-] || discriminate; done.
Qed.

Lemma apply_updates_again updates d d' :
  apply_updates updates d = inr d' -> apply_updates updates d' = inr d'.
Proof.
  unfold apply_updates.
  destruct (DashboardUpdate.name updates),
    (DashboardUpdate.total_score updates),
    (DashboardUpdate.cde_score updates),
    (DashboardUpdate.category updates) as [c|],
    (DashboardUpdate.filters updates),
    (DashboardUpdate.group_by_field updates);
    try destruct (ScoreCategory_getitem c);
    intros [= <-] || discriminate; destruct d; reflexivity.
Qed.

(** X13.  A successful update changes only what the body supplies: the
    stored definition keeps its id, project code and history, takes each of
    [name], [total_score], [cde_score] from the body when given and keeps
    it otherwise, takes the category the [ScoreCategory] lookup returns
    when one is given, and the response is the cached card of that stored
    definition. *)
Theorem update_changes_only_supplied_fields
    (dashboard_id : string) (updates : DashboardUpdate.t)
    (d : ScoreDefinition.t) (w : World) (r : DashboardResponse.t)
    (w' : World) :
  UUID_parses dashboard_id = true ->
  definitions w !! dashboard_id = Some d ->
  update_dashboard dashboard_id updates w = (inr r, w') ->
  exists d',
    definitions w' !! ScoreDefinition.id d = Some d'
    /\ r = DashboardResponse_kwargs
             (format_score_card (as_cached_score_card d' true))
    /\ ScoreDefinition.id d' = ScoreDefinition.id d
    /\ ScoreDefinition.project_code d' = ScoreDefinition.project_code d
    /\ ScoreDefinition.history d' = ScoreDefinition.history d
    /\ ScoreDefinition.name d'
       = default (ScoreDefinition.name d) (DashboardUpdate.name updates)
    /\ ScoreDefinition.total_score d'
       = default (ScoreDefinition.total_score d)
                 (DashboardUpdate.total_score updates)
    /\ ScoreDefinition.cde_score d'
       = default (ScoreDefinition.cde_score d)
                 (DashboardUpdate.cde_score updates)
    /\ ScoreDefinition.category d'
       = match DashboardUpdate.category updates with
         | Some c => ScoreCategory_getitem c
         | None => ScoreDefinition.category d
         end.
Proof.
  intros Hid Hd. rewrite (update_dashboard_run _ _ d) by done.
  destruct (apply_updates updates d) as [e|d'] eqn:Hd'; [done|].
  intros [= <- <-]. exists d'.
  pose proof (apply_updates_frame _ _ _ Hd') as (Hsame & Hframe).
  simpl. split; [by rewrite <- Hsame, lookup_insert_eq|].
  split; [done|]. split; [done|]. exact Hframe.
Qed.


(** X15.  Updates are idempotent: sending the same body again to a
    definition stored under its own id stores the same definition and
    gives the same response, leaving the stored definitions unchanged. *)
Theorem update_twice_is_update_once
    (dashboard_id : string) (updates : DashboardUpdate.t)
    (d : ScoreDefinition.t) (w : World) (r : DashboardResponse.t)
    (w1 : World) :
  UUID_parses dashboard_id = true ->
  definitions w !! dashboard_id = Some d ->
  ScoreDefinition.id d = dashboard_id ->
  update_dashboard dashboard_id updates w = (inr r, w1) ->
  exists w2,
    update_dashboard dashboard_id updates w1 = (inr r, w2)
    /\ definitions w2 = definitions w1
    /\ projects w2 = projects w1.
Proof.
  intros Hid Hd Hkey. rewrite (update_dashboard_run _ _ d) by done.
  destruct (apply_updates updates d) as [e|d'] eqn:Hd'; [done|].
  intros [= <- <-].
  pose proof (apply_updates_frame _ _ _ Hd') as (Hsame & _).
  rewrite Hkey in Hsame.
  eexists. rewrite (update_dashboard_run _ _ d'); cycle 1.
  { done. }
  { simpl. by rewrite Hsame, lookup_insert_eq. }
  rewrite (apply_updates_again _ _ _ Hd'). split; [reflexivity|].
  simpl. split; [|done]. by rewrite insert_insert_eq.
Qed.

End UpdateExtras.

Lemma update_changes_only_supplied_fields_witness :
  exists r w' d',
    update_dashboard Sample.dashboard_id
      {| DashboardUpdate.name := Some "Renamed";
         DashboardUpdate.total_score := None;
         DashboardUpdate.cde_score := Some true;
         DashboardUpdate.category := None;
         DashboardUpdate.filters := None;
         DashboardUpdate.group_by_field := None |}
      Sample.world = (inr r, w')
    /\ definitions w' !! Sample.dashboard_id = Some d'
    /\ ScoreDefinition.name d' = "Renamed"
    /\ ScoreDefinition.total_score d' = true
    /\ ScoreDefinition.category d' = Some "dq_dimension".
Proof.
  eexists _, _.
  assert (UUID_parses Sample.dashboard_id = true) as Hid by reflexivity.
  assert (definitions Sample.world !! Sample.dashboard_id
          = Some Sample.dashboard) as Hd by (vm_compute; reflexivity).
  match goal with
  | |- exists d', ?run = _ /\ _ =>
      destruct (update_changes_only_supplied_fields Sample.dashboard_id
                  _ Sample.dashboard Sample.world _ _ Hid Hd
                  (eq_refl : run = (_, _)))
        as (d' & Hstored & _ & _ & _ & _ & Hname & Htotal & _ & Hcat)
  end.
  exists d'. split; [reflexivity|]. split; [exact Hstored|].
  split; [exact Hname|]. split; [exact Htotal | exact Hcat].
Defined.


Lemma update_twice_is_update_once_witness :
  exists r w1 w2,
    update_dashboard Sample.dashboard_id
      {| DashboardUpdate.name := Some "Renamed";
         DashboardUpdate.total_score := None;
         DashboardUpdate.cde_score := None;
         DashboardUpdate.category := Some "data_source";
         DashboardUpdate.filters := Some [];
         DashboardUpdate.group_by_field := None |}
      Sample.world = (inr r, w1)
    /\ update_dashboard Sample.dashboard_id
         {| DashboardUpdate.name := Some "Renamed";
            DashboardUpdate.total_score := None;
            DashboardUpdate.cde_score := None;
            DashboardUpdate.category := Some "data_source";
            DashboardUpdate.filters := Some [];
            DashboardUpdate.group_by_field := None |}
         w1 = (inr r, w2)
    /\ definitions w2 = definitions w1.
Proof.
  eexists _, _.
  assert (UUID_parses Sample.dashboard_id = true) as Hid by reflexivity.
  assert (definitions Sample.world !! Sample.dashboard_id
          = Some Sample.dashboard) as Hd by (vm_compute; reflexivity).
  match goal with
  | |- exists w2, ?run = _ /\ _ =>
      destruct (update_twice_is_update_once Sample.dashboard_id
                  _ Sample.dashboard Sample.world _ _ Hid Hd eq_refl
                  (eq_refl : run = (inr _, _)))
        as (w2 & Hagain & Hstore & _)
  end.
  exists w2. split; [reflexivity|]. split; [exact Hagain | exact Hstore].
Defined.

(** ** The create handler *)
Section CreateProperties.
Context `{EngineExt}.

Lemma create_dashboard_run (dashboard : DashboardCreate.t) (w : World) :
  let project_code := DashboardCreate.project_code dashboard in
  let w1 := logged w [ProjectQuery project_code] in
  create_dashboard dashboard w =
    if bool_decide (project_code ∈ projects w) then
      match new_definition dashboard with
      | inr score_def =>
          let d' := set_id (new_id w1) score_def in
          (inr (DashboardResponse_kwargs
                  (format_score_card (as_score_card_saving d'))),
           {| projects := projects w;
              definitions := <[new_id w1 := d']> (definitions w);
              log := log w ++ [ProjectQuery project_code; Save d';
                               AsScoreCard (new_id w1)] |})
      | inl e => (inl e, w1)
      end
    else
      (inl (HTTPException 404
              ("Project '" +:+ project_code +:+ "' not found")), w1).
Proof.
  intros project_code w1. unfold create_dashboard. unfold bind at 1.
  rewrite validate_project_code_run. fold project_code.
  case_bool_decide; [|done].
  unfold bind at 1.
  destruct (new_definition dashboard) as [e|score_def]; simpl; [done|].
  unfold bind, save_new, call, ret, logged. simpl.
  by rewrite <- !app_assoc.
Qed.

Lemma new_definition_fails dashboard e :
  new_definition dashboard = inl e ->
  exists c,
    DashboardCreate.category dashboard = Some c
    /\ c <> EmptyString
    /\ ScoreCategory_getitem c = None
    /\ e = KeyError c.
Proof.
  unfold new_definition.
  destruct (DashboardCreate.category dashboard) as [[|a c]|]; simpl;
    try done.
  destruct (ScoreCategory_getitem (String a c)) eqn:Hc; [done|].
  intros [= <-]. by eexists.
Qed.

Lemma new_definition_fields dashboard score_def :
  new_definition dashboard = inr score_def ->
  ScoreDefinition.project_code score_def
  = DashboardCreate.project_code dashboard
  /\ ScoreDefinition.name score_def = DashboardCreate.name dashboard
  /\ ScoreDefinition.total_score score_def
     = DashboardCreate.total_score dashboard
  /\ ScoreDefinition.cde_score score_def
     = DashboardCreate.cde_score dashboard
  /\ ScoreDefinition.criteria score_def
     = from_filters (map filter_data (DashboardCreate.filters dashboard))
                    (DashboardCreate.group_by_field dashboard)
  /\ ScoreDefinition.history score_def
     = ScoreDefinition.history ScoreDefinition_blank
  /\ ScoreDefinition.category score_def
     = (if PyStr.truthy (DashboardCreate.category dashboard)
        then DashboardCreate.category dashboard ≫= ScoreCategory_getitem
        else ScoreDefinition.category ScoreDefinition_blank).
Proof.
  unfold new_definition.
  destruct (DashboardCreate.category dashboard) as [[|a c]|]; simpl;
    try (by intros [= <-]).
  destruct (ScoreCategory_getitem (String a c)); [|done].
  by intros [= <-].
Qed.

(** X16.  A create request that fails saves nothing and computes no
    score card: the project query is the only call made.  It fails either
    with the 404 of the project check, or, the project being there, with
    the [KeyError] of a non-empty category that [ScoreCategory] does not
    have. *)
Theorem create_failure_saves_nothing
    (dashboard : DashboardCreate.t) (w : World) (e : Exn) (w' : World) :
  create_dashboard dashboard w = (inl e, w') ->
  w' = logged w [ProjectQuery (DashboardCreate.project_code dashboard)]
  /\ definitions w' = definitions w
  /\ (((DashboardCreate.project_code dashboard ∉ projects w)
       /\ e = HTTPException 404
                ("Project '" +:+ DashboardCreate.project_code dashboard
                 +:+ "' not found"))
      \/ ((DashboardCreate.project_code dashboard ∈ projects w)
          /\ exists c,
               DashboardCreate.category dashboard = Some c
               /\ c <> EmptyString
               /\ ScoreCategory_getitem c = None
               /\ e = KeyError c)).
Proof.
  rewrite create_dashboard_run. simpl. case_bool_decide as Hproject.
  - destruct (new_definition dashboard) as [e0|score_def] eqn:Hnew; [|done].
    intros [= <- <-]. split; [done|]. split; [done|]. right.
    split; [done|]. by apply new_definition_fails.
  - intros [= <- <-]. split; [done|]. split; [done|]. by left.
Qed.

(** X17.  A create request for an existing project whose category, if
    any, is a [ScoreCategory] member succeeds: the project is checked, the
    definition is saved under the id it receives, and only then is its
    score card computed.  The saved definition carries the body's project
    code, name and flags, criteria built from exactly the body's filters
    with the body's [group_by_field], and the category looked up (the one
    of a blank definition when the body has none). *)
Theorem create_saves_the_body
    (dashboard : DashboardCreate.t) (w : World) :
  DashboardCreate.project_code dashboard ∈ projects w ->
  (forall c, DashboardCreate.category dashboard = Some c ->
             c <> EmptyString -> is_Some (ScoreCategory_getitem c)) ->
  exists d' w',
    create_dashboard dashboard w
    = (inr (DashboardResponse_kwargs
              (format_score_card (as_score_card_saving d'))), w')
    /\ definitions w' = <[ScoreDefinition.id d' := d']> (definitions w)
    /\ log w' = log w ++ [ProjectQuery (DashboardCreate.project_code
                                          dashboard);
                          Save d'; AsScoreCard (ScoreDefinition.id d')]
    /\ ScoreDefinition.project_code d'
       = DashboardCreate.project_code dashboard
    /\ ScoreDefinition.name d' = DashboardCreate.name dashboard
    /\ ScoreDefinition.total_score d'
       = DashboardCreate.total_score dashboard
    /\ ScoreDefinition.cde_score d' = DashboardCreate.cde_score dashboard
    /\ ScoreDefinition.criteria d'
       = from_filters (map filter_data (DashboardCreate.filters dashboard))
                      (DashboardCreate.group_by_field dashboard)
    /\ ScoreDefinition.history d'
       = ScoreDefinition.history ScoreDefinition_blank
    /\ ScoreDefinition.category d'
       = (if PyStr.truthy (DashboardCreate.category dashboard)
          then DashboardCreate.category dashboard ≫= ScoreCategory_getitem
          else ScoreDefinition.category ScoreDefinition_blank).
Proof.
  intros Hproject Hcat.
  destruct (new_definition dashboard) as [e|score_def] eqn:Hnew.
  { apply new_definition_fails in Hnew as (c & Hc & Hne & Hnone & _).
    destruct (Hcat c Hc Hne) as [sc Hsc]. congruence. }
  eexists (set_id _ score_def), _. split.
  { rewrite create_dashboard_run. simpl.
    rewrite bool_decide_eq_true_2 by done. rewrite Hnew. reflexivity. }
  simpl. split; [done|]. split; [done|].
  exact (new_definition_fields _ _ Hnew).
Qed.

(** X18.  Creating with given filters and flag, and updating with the
    same filters and flag, build the same criteria; an update that gives
    the filters but no flag agrees with a creation whose flag is [true]. *)
Theorem create_and_update_build_the_same_criteria
    (dashboard : DashboardCreate.t) (updates : DashboardUpdate.t)
    (created old updated : ScoreDefinition.t) :
  new_definition dashboard = inr created ->
  apply_updates updates old = inr updated ->
  DashboardUpdate.filters updates = Some (DashboardCreate.filters dashboard) ->
  DashboardUpdate.group_by_field updates
  = Some (DashboardCreate.group_by_field dashboard)
  \/ (DashboardUpdate.group_by_field updates = None
      /\ DashboardCreate.group_by_field dashboard = true) ->
  ScoreDefinition.criteria updated = ScoreDefinition.criteria created.
Proof.
  intros Hnew Hupd Hfilters Hflag.
  destruct (new_definition_fields _ _ Hnew) as (_ & _ & _ & _ & -> & _).
  destruct (apply_updates_filters_present _ _ _ _ Hfilters Hupd) as [-> _].
  by destruct Hflag as [-> | [-> ->]].
Qed.

End CreateProperties.

Lemma create_failure_saves_nothing_witness :
  exists w',
    create_dashboard
      {| DashboardCreate.name := "Orders";
         DashboardCreate.project_code := "MISSING";
         DashboardCreate.total_score := true;
         DashboardCreate.cde_score := false;
         DashboardCreate.category := None;
         DashboardCreate.filters := [];
         DashboardCreate.group_by_field := true |} Sample.world
    = (inl (HTTPException 404 "Project 'MISSING' not found"), w')
    /\ definitions w' = definitions Sample.world.
Proof.
  eexists.
  match goal with
  | |- ?run = _ /\ _ =>
      destruct (create_failure_saves_nothing _ Sample.world _ _
                  (eq_refl : run = (inl (HTTPException 404
                                     "Project 'MISSING' not found"), _)))
        as (_ & Hstore & _)
  end.
  split; [reflexivity | exact Hstore].
Defined.

Lemma create_saves_the_body_witness :
  exists d' w',
    create_dashboard SampleExt.body Sample.world
    = (inr (DashboardResponse_kwargs
              (format_score_card (as_score_card_saving d'))), w')
    /\ definitions w' !! ScoreDefinition.id d' = Some d'
    /\ ScoreDefinition.name d' = "Orders"
    /\ ScoreDefinition.category d' = Some "data_source"
    /\ ScoreDefinition.criteria d'
       = ([ {| FilterData.field := "data_source";
               FilterData.value := "postgres";
               FilterData.others := [] |} ], false).
Proof.
  assert (DashboardCreate.project_code SampleExt.body ∈ projects Sample.world)
    as Hproject by (apply (bool_decide_eq_true_1 _); vm_compute; reflexivity).
  assert (forall c, DashboardCreate.category SampleExt.body = Some c ->
                    c <> EmptyString -> is_Some (ScoreCategory_getitem c))
    as Hcat by (intros c [= <-] _; by eexists).
  destruct (create_saves_the_body SampleExt.body Sample.world Hproject Hcat)
    as (d' & w' & Hrun & Hstore & Hlog & _ & Hname & _ & _ & Hcrit & _ & Hc).
  exists d', w'. split; [exact Hrun|].
  split; [by rewrite Hstore, lookup_insert_eq|].
  split; [exact Hname|]. split; [exact Hc | exact Hcrit].
Defined.

Lemma create_and_update_build_the_same_criteria_witness :
  exists created updated,
    new_definition SampleExt.body = inr created
    /\ apply_updates
         {| DashboardUpdate.name := None;
            DashboardUpdate.total_score := None;
            DashboardUpdate.cde_score := None;
            DashboardUpdate.category := None;
            DashboardUpdate.filters :=
              Some (DashboardCreate.filters SampleExt.body);
            DashboardUpdate.group_by_field := Some false |}
         Sample.dashboard = inr updated
    /\ ScoreDefinition.criteria updated = ScoreDefinition.criteria created.
Proof.
  destruct (new_definition SampleExt.body) as [e|created] eqn:Hnew;
    [vm_compute in Hnew; discriminate Hnew|].
  destruct (apply_updates
              {| DashboardUpdate.name := None;
                 DashboardUpdate.total_score := None;
                 DashboardUpdate.cde_score := None;
                 DashboardUpdate.category := None;
                 DashboardUpdate.filters :=
                   Some (DashboardCreate.filters SampleExt.body);
                 DashboardUpdate.group_by_field := Some false |}
              Sample.dashboard) as [e|updated] eqn:Hupd;
    [vm_compute in Hupd; discriminate Hupd|].
  exists created, updated. split; [reflexivity|]. split; [reflexivity|].
  apply (create_and_update_build_the_same_criteria SampleExt.body _
           created Sample.dashboard updated Hnew Hupd eq_refl).
  by left.
Defined.

(** ** The read handler *)
Section ReadProperties.
Context `{EngineExt}.



End ReadProperties.


(** ** The option tables and the routes *)

Lemma label_of_key (table : list Option_.t) (key label : string) :
  label_of table key = Some label -> key ∈ map Option_.key table.
Proof.
  unfold label_of. destruct (List.find _ table) as [o|] eqn:Hfind; [|done].
  intros _. apply find_some in Hfind as [Hin Heq].
  apply String.eqb_eq in Heq as <-.
  apply list_elem_of_fmap. exists o. split; [done|].
  by apply list_elem_of_In.
Qed.

Ltac each_key H :=
  repeat (apply elem_of_cons in H as [-> | H]);
  [.. | by apply elem_of_nil in H].

(** X20.  The three hand-written tables agree.  The filter fields are
    the nine categories of the filter-value query, in the same order, that
    is the vocabulary without [column_name], [table_name], [dq_dimension]
    and [semantic_data_type]; and a key carries the same label in every
    table that has it: each filter field appears with its label among the
    category options, and each category option with its label among the
    grouping options. *)
Theorem option_tables_agree :
  map Option_.key filter_fields_metadata_table = categories
  /\ categories
     = filter (fun v => v ∉ ["column_name"; "table_name"; "dq_dimension";
                             "semantic_data_type"])
              GroupBy.valid_categories
  /\ (forall key label,
        label_of filter_fields_metadata_table key = Some label ->
        label_of category_options_table key = Some label)
  /\ (forall key label,
        label_of category_options_table key = Some label ->
        label_of score_grouping_options_table key = Some label).
Proof.
  split; [reflexivity|]. split; [by vm_compute|].
  split; intros key label Hlabel;
    pose proof (label_of_key _ _ _ Hlabel) as Hkey;
    each_key Hkey; vm_compute in Hlabel |- *; exact Hlabel.
Qed.

Section OptionsAndRoutes.
Context `{Engine}.

Lemma of_string_is_Some (s : string) :
  is_Some (ScoreType.of_string s)
  <-> s ∈ map Option_.key score_type_options_table.
Proof.
  unfold ScoreType.of_string. split.
  - destruct (String.eqb s "score") eqn:H1.
    { apply String.eqb_eq in H1 as ->. intros _.
      apply elem_of_cons. by left. }
    destruct (String.eqb s "cde_score") eqn:H2.
    { apply String.eqb_eq in H2 as ->. intros _.
      apply elem_of_cons. right. apply elem_of_cons. by left. }
    by intros [? ?].
  - intros Hin. each_key Hin; by eexists.
Qed.

(** X21.  The options that filter-options offers for score type and
    grouping are exactly the strings the breakdown and issues routes
    accept: a request built from two offered values is never refused at
    parameter coercion, and a request with a score type or a grouping that
    is not offered always is, before the handler runs. *)
Theorem offered_options_are_the_accepted_ones
    (dashboard_id score_type group_by value : string) (w : World) :
  (is_Some (ScoreType.of_string score_type)
   <-> score_type ∈ map Option_.key score_type_options_table)
  /\ (is_Some (GroupBy.of_value group_by)
      <-> group_by ∈ map Option_.key score_grouping_options_table)
  /\ (score_type ∈ map Option_.key score_type_options_table ->
      group_by ∈ map Option_.key score_grouping_options_table ->
      forall param,
        fst (breakdown_route dashboard_id score_type group_by w)
        <> inl (RequestValidationError param)
        /\ fst (issues_route dashboard_id score_type group_by value w)
           <> inl (RequestValidationError param))
  /\ (score_type ∉ map Option_.key score_type_options_table
      \/ group_by ∉ map Option_.key score_grouping_options_table ->
      exists param,
        breakdown_route dashboard_id score_type group_by w
        = (inl (RequestValidationError param), w)
        /\ issues_route dashboard_id score_type group_by value w
           = (inl (RequestValidationError param), w)).
Proof.
  assert (is_Some (GroupBy.of_value group_by)
          <-> group_by ∈ map Option_.key score_grouping_options_table)
    as Hgroup by apply of_value_is_Some.
  split; [apply of_string_is_Some|]. split; [exact Hgroup|].
  rewrite breakdown_route_spec, issues_route_spec.
  change (map Option_.key score_grouping_options_table)
    with GroupBy.valid_categories in *.
  split.
  - intros Hst Hg param. apply of_string_is_Some in Hst as [st ->].
    rewrite bool_decide_eq_true_2 by done.
    split; intros Hfail.
    + destruct (breakdown_direct dashboard_id st group_by w) as [r w'] eqn:Hrun.
      simpl in Hfail. subst r.
      apply breakdown_direct_exn in Hrun as Hnot.
      unfold breakdown_direct, bind in Hrun.
      destruct (validate_dashboard_id dashboard_id w) as [[e|d] w0] eqn:Hv;
        [|discriminate].
      injection Hrun as -> _.
      unfold validate_dashboard_id, bind, call, get_world, raise in Hv.
      destruct (UUID_parses dashboard_id); simpl in Hv;
        [destruct (definitions w !! dashboard_id)|]; simplify_eq.
    + destruct (issues_direct dashboard_id st group_by value w)
        as [r w'] eqn:Hrun.
      simpl in Hfail. subst r.
      unfold issues_direct, bind in Hrun.
      destruct (validate_dashboard_id dashboard_id w) as [[e|d] w0] eqn:Hv;
        [|discriminate].
      injection Hrun as -> _.
      unfold validate_dashboard_id, bind, call, get_world, raise in Hv.
      destruct (UUID_parses dashboard_id); simpl in Hv;
        [destruct (definitions w !! dashboard_id)|]; simplify_eq.
  - intros [Hst | Hg].
    + destruct (ScoreType.of_string score_type) as [st|] eqn:Hparse.
      * destruct Hst. apply of_string_is_Some. by eexists.
      * by eexists.
    + destruct (ScoreType.of_string score_type) as [st|]; [|by eexists].
      rewrite bool_decide_eq_false_2 by done. by eexists.
Qed.

End OptionsAndRoutes.

Lemma offered_options_are_the_accepted_ones_witness :
  ("cde_score" ∈ map Option_.key score_type_options_table)
  /\ ("semantic_data_type" ∈ map Option_.key score_grouping_options_table)
  /\ fst (breakdown_route Sample.dashboard_id "cde_score"
            "semantic_data_type" Sample.world)
     <> inl (RequestValidationError "group_by").
Proof.
  assert ("cde_score" ∈ map Option_.key score_type_options_table) as Hst
    by (apply (bool_decide_eq_true_1 _); vm_compute; reflexivity).
  assert ("semantic_data_type"
          ∈ map Option_.key score_grouping_options_table) as Hg
    by (apply (bool_decide_eq_true_1 _); vm_compute; reflexivity).
  split; [exact Hst|]. split; [exact Hg|].
  destruct (offered_options_are_the_accepted_ones Sample.dashboard_id
              "cde_score" "semantic_data_type" "demo" Sample.world)
    as (_ & _ & Haccepted & _).
  exact (proj1 (Haccepted Hst Hg "group_by")).
Defined.

(** ** More on the grouping of filter values *)

Lemma group_rows_lookup (rows : list CategoryValueRow.t) (c : string) :
  group_rows rows !! c =
    match observed c rows with
    | [] => None
    | vs => Some vs
    end.
Proof.
  unfold group_rows. rewrite fold_group_row_lookup, lookup_empty.
  by destruct (observed c rows).
Qed.

(** X22.  Grouping two result sets one after the other is grouping each
    and appending, key by key, the values of the second to those of the
    first; values are neither reordered nor deduplicated. *)
Theorem group_rows_app (rows1 rows2 : list CategoryValueRow.t) (c : string) :
  group_rows (rows1 ++ rows2) !! c
  = union_with (fun vs1 vs2 => Some (vs1 ++ vs2))
      (group_rows rows1 !! c) (group_rows rows2 !! c).
Proof.
  rewrite !group_rows_lookup, observed_app.
  destruct (observed c rows1) as [|v1 vs1],
    (observed c rows2) as [|v2 vs2]; simpl; try done.
  by rewrite app_nil_r.
Qed.

Lemma observed_category (c v : string) (rows : list CategoryValueRow.t) :
  v ∈ observed c rows ->
  exists row, row ∈ rows
    /\ CategoryValueRow.category row = Some c
    /\ CategoryValueRow.value row = Some v.
Proof.
  unfold observed. intros Hv.
  apply list_elem_of_omap in Hv as (row & Hrow & Hsome).
  exists row. split; [done|].
  destruct (CategoryValueRow.category row) as [c'|],
    (CategoryValueRow.value row) as [v'|]; try done.
  destruct c', v'; simpl in Hsome; try done.
  case_bool_decide as Hc; [|done]. injection Hsome as <-. by subst c.
Qed.

(** X23.  Keys and values of the grouped mapping come from the rows:
    each value stored under a key is the value of a row of that category.
    So when every row carries one of the nine queried categories, every
    key of the mapping is one of them and has a label in the filter field
    metadata returned beside it. *)
Theorem filter_value_keys_are_labelled
    (rows : list CategoryValueRow.t) (c : string) (vs : list string) :
  Forall (fun row => forall c', CategoryValueRow.category row = Some c' ->
                                c' ∈ categories) rows ->
  group_rows rows !! c = Some vs ->
  c ∈ categories
  /\ is_Some (label_of filter_fields_metadata_table c)
  /\ Forall (fun v => exists row,
               row ∈ rows
               /\ CategoryValueRow.category row = Some c
               /\ CategoryValueRow.value row = Some v) vs.
Proof.
  intros Hrows. rewrite group_rows_lookup.
  destruct (observed c rows) as [|v vs'] eqn:Hobs; [done|].
  intros [= <-].
  assert (Forall (fun v => exists row,
                    row ∈ rows
                    /\ CategoryValueRow.category row = Some c
                    /\ CategoryValueRow.value row = Some v) (v :: vs'))
    as Hvalues.
  { apply Forall_forall. intros v' Hv'. apply observed_category.
    by rewrite Hobs. }
  assert (c ∈ categories) as Hc.
  { apply Forall_cons in Hvalues as [(row & Hrow & Hcat & _) _].
    rewrite Forall_forall in Hrows. by apply (Hrows row). }
  split; [exact Hc|]. split; [|exact Hvalues].
  unfold categories in Hc. each_key Hc; by eexists.
Qed.

Lemma filter_value_keys_are_labelled_witness :
  group_rows (filter_value_rows "DEFAULT") !! "data_source"
  = Some ["postgres"; "snowflake"]
  /\ is_Some (label_of filter_fields_metadata_table "data_source").
Proof.
  assert (Forall (fun row => forall c', CategoryValueRow.category row
                                        = Some c' -> c' ∈ categories)
                 (filter_value_rows "DEFAULT")) as Hrows.
  { apply Forall_forall. intros row Hrow c' Hc'.
    change (filter_value_rows "DEFAULT") with
      [ {| CategoryValueRow.category := Some "data_source";
           CategoryValueRow.value := Some "postgres" |};
        {| CategoryValueRow.category := Some "data_source";
           CategoryValueRow.value := Some EmptyString |};
        {| CategoryValueRow.category := Some "data_location";
           CategoryValueRow.value := Some "eu" |};
        {| CategoryValueRow.category := Some "data_source";
           CategoryValueRow.value := Some "snowflake" |} ] in Hrow.
    each_key Hrow; injection Hc' as <-;
      apply (bool_decide_eq_true_1 _); vm_compute; reflexivity. }
  assert (group_rows (filter_value_rows "DEFAULT") !! "data_source"
          = Some ["postgres"; "snowflake"]) as Hlookup
    by (vm_compute; reflexivity).
  split; [exact Hlookup|].
  exact (proj1 (proj2 (filter_value_keys_are_labelled _ _ _ Hrows Hlookup))).
Defined.

(** ** The session dependency *)

(** X24.  Whatever the endpoints return, value or exception, every
    request runs with its own session bound to the thread-local wrapper,
    and once it is over the wrapper is unbound and the session closed:
    after any sequence of requests the sessions have been closed in the
    order they were opened, none is left bound, and no endpoint has seen
    the session of another request. *)
Theorem sessions_are_released_on_every_exit {Session A : Type}
    (requests : list (Session * DbSession.Endpoint Session A))
    (t : DbSession.Thread Session) :
  let '(results, t') := DbSession.serve Session requests t in
  results = map (fun '(session, endpoint) => endpoint session (Some session))
                requests
  /\ DbSession.closed Session t'
     = DbSession.closed Session t ++ map fst requests
  /\ DbSession.current_session Session t'
     = match requests with
       | [] => DbSession.current_session Session t
       | _ => None
       end.
Proof.
  revert t. induction requests as [|[session endpoint] rest IH]; intros t.
  - simpl. by rewrite app_nil_r.
  - simpl. specialize (IH
      {| DbSession.current_session := None;
         DbSession.closed := DbSession.closed Session t ++ [session] |}).
    destruct (DbSession.serve Session rest _) as [results t'].
    destruct IH as (-> & -> & Hcurrent). simpl.
    split; [done|]. split; [by rewrite <- app_assoc|].
    rewrite Hcurrent. by destruct rest.
Qed.
